(** * imagetostorey: the speech pipeline of [app.py]

    A shallow embedding of the Streamlit script [src/app.py]: the start-up
    configuration of the ElevenLabs client, the voice catalogue resolver, the
    two text-to-speech helpers and the button handler that dispatches between
    them.

    The script talks to Streamlit, ElevenLabs, gTTS, Gemini and the file
    system.  Their answers are collected in one record [env] of
    oracles; what the script does to them is recorded in an event [log] and in
    a finite map of [files].  Module-level variables of the script live in the
    record [globals], so that an assignment made inside a [try] block survives
    the exception that ends the block, as it does in Python. *)

From Stdlib Require Import QArith.
From stdpp Require Import gmap strings list fin_maps sorting.

Open Scope string_scope.

(** ** Python values *)

Definition bytes := list Byte.byte.

(** [bool(s)] for a [str]. *)
Definition truthy_str (s : string) : bool :=
  match s with EmptyString => false | String _ _ => true end.

(** [bool(b)] for a [bytes] object or a list. *)
Definition truthy_list {A} (l : list A) : bool :=
  match l with [] => false | _ :: _ => true end.

(** [s.startswith(p)]. *)
Definition startswith (s p : string) : bool := String.prefix p s.

(** An instance of [Exception]: its class name and [str(e)].  Signals that
    do not derive from [Exception] ([KeyboardInterrupt], [SystemExit]) belong
    to the interpreter and are not part of the model. *)
Record exn := Exn { exn_class : string; exn_str : string }.

Inductive result (A : Type) : Type :=
| Ok (a : A)
| Raise (e : exn).
Arguments Ok {A} a.
Arguments Raise {A} e.

(** ** ElevenLabs data *)

(** A handle made by [ElevenLabs(api_key=...)]. *)
Record client := Client { api_key : string }.

(** A value held by [voice.name]: a string, or Python's [None] (the SDK
    declares the attribute as an optional string). *)
Definition py_name := option string.

(** What [hasattr(voice, 'name')] / [voice.name] does on a record. *)
Inductive name_attr :=
| NoName                       (* the attribute is missing *)
| Name (n : py_name)           (* the attribute holds this value *)
| NameRaises (e : exn).        (* reading the attribute raises *)

(** An item of the voice list: its [name] attribute and its [str()]. *)
Record voice := Voice { v_name : name_attr; v_repr : string }.

(** An element of a tuple returned by [voices.get_all()]. *)
Inductive tuple_item :=
| ItemList (l : list voice)
| ItemOther (repr : string).

(** The value returned by [elevenlabs_client.voices.get_all()]. *)
Inductive voices_value :=
| VResponse (voices : option (list voice))
    (* a [GetVoicesResponse]; [None] when [.voices] is not a list *)
| VTuple (items : list tuple_item)
| VList (l : list voice)
| VOther (type_repr : string).

(** [VoiceSettings(stability=..., similarity_boost=...)].  A Python float
    is represented by the rational number it denotes; the script only stores,
    passes on and compares these numbers. *)
Record VoiceSettings := mkVoiceSettings { stability : Q; similarity_boost : Q }.

(** The dictionary [generate_params] whose entries become the keyword
    arguments of [elevenlabs_client.generate]: the keys text, voice, model
    and, when present, voice_settings. *)
Record generate_params := GenerateParams {
  gp_text : string;
  gp_voice : string;
  gp_model : string;
  gp_voice_settings : option VoiceSettings
}.

(** The value returned by [generate]: something without [__iter__], or a
    stream of chunks that may raise while it is read. *)
Inductive audio_stream :=
| NotIterable
| Stream (chunks : list bytes) (fails : option exn).

(** A Gemini response: for each candidate the texts of its content parts,
    and [str(response)]. *)
Record gemini_response := GeminiResponse {
  candidates : list (list string);
  response_repr : string
}.

(** ** The outside world *)

Record env := Env {
  (* st.secrets.get("ELEVENLABS_API_KEY", "") *)
  secrets_get_key : result string;
  (* ElevenLabs(api_key=...) *)
  ElevenLabs_new : string -> result client;
  (* voices.get_all() at start-up (line 47) and in the voice options
     (line 211) *)
  get_all_probe : result voices_value;
  get_all_catalog : result voices_value;
  (* elevenlabs_client.generate(...) *)
  generate : generate_params -> result audio_stream;
  (* gTTS(text=..., lang='en', slow=False) followed by write_to_fp *)
  gtts_synth : string -> result bytes;
  (* tempfile.NamedTemporaryFile(delete=False, suffix=".mp3"): the path of
     the file it creates; temp_file.write; Path.unlink *)
  tmp_name : result string;
  tmp_write : option exn;
  unlink_fails : option exn;
  (* widgets *)
  selectbox_index : nat;
  slider_stability : Q;
  slider_clarity : Q;
  (* Gemini *)
  gemini_api_configured : bool;
  (* vision_model.generate_content([image part, prompt text]) *)
  vision_generate : bytes -> string -> result gemini_response
}.

Inductive event :=
| St_error (msg : string)
| St_warning (msg : string)
| St_info (msg : string)
| St_text (msg : string)
| St_subheader (msg : string)
| St_write (msg : string)
| St_audio (data : bytes)
| Call_get_all
| Call_generate (params : generate_params)
| Call_gtts (text : string).

(** Module-level variables of the script.  [audio_bytes] is [None] while
    the name is unbound. *)
Record globals := Globals {
  elevenlabs_client : option client;
  elevenlabs_configured : bool;
  selected_voice : option string;
  voice_settings : option (gmap string Q);
  audio_bytes : option (option bytes)
}.

Record world := World {
  vars : globals;
  files : gmap string bytes;
  log : list event
}.

(** The state of a fresh run: lines 36-37 and 203-204. *)
Definition initial_globals : globals :=
  Globals None false None None None.

Definition initial_world (fs : gmap string bytes) : world :=
  World initial_globals fs [].

(** ** A state and exception monad *)

Definition M (A : Type) : Type := world -> result A * world.

Definition ret {A} (a : A) : M A := fun w => (Ok a, w).

Definition bind {A B} (m : M A) (k : A -> M B) : M B :=
  fun w => match m w with
           | (Ok a, w') => k a w'
           | (Raise e, w') => (Raise e, w')
           end.

Definition raise {A} (e : exn) : M A := fun w => (Raise e, w).

(** [try: m except Exception as e: h e]. *)
Definition try_except {A} (m : M A) (h : exn -> M A) : M A :=
  fun w => match m w with
           | (Ok a, w') => (Ok a, w')
           | (Raise e, w') => h e w'
           end.

Definition lift {A} (r : result A) : M A := fun w => (r, w).

Definition emit (e : event) : M unit :=
  fun w => (Ok tt, World (vars w) (files w) (log w ++ [e])).

Definition read {A} (f : globals -> A) : M A := fun w => (Ok (f (vars w)), w).

Definition assign (f : globals -> globals) : M unit :=
  fun w => (Ok tt, World (f (vars w)) (files w) (log w)).

Definition update_files (f : gmap string bytes -> gmap string bytes) : M unit :=
  fun w => (Ok tt, World (vars w) (f (files w)) (log w)).

Declare Scope py_scope.
Delimit Scope py_scope with py.
Notation "'let!' x ':=' m 'in' k" := (bind m (fun x => k))
  (at level 10, x name, m at level 100, k at level 200) : py_scope.
Notation "m '>>' k" := (bind m (fun _ => k))
  (at level 100, k at level 200, right associativity) : py_scope.
Open Scope py_scope.

Definition set_client (c : option client) : M unit :=
  assign (fun g => Globals c (elevenlabs_configured g) (selected_voice g)
                     (voice_settings g) (audio_bytes g)).
Definition set_configured (b : bool) : M unit :=
  assign (fun g => Globals (elevenlabs_client g) b (selected_voice g)
                     (voice_settings g) (audio_bytes g)).
Definition set_selected_voice (v : option string) : M unit :=
  assign (fun g => Globals (elevenlabs_client g) (elevenlabs_configured g) v
                     (voice_settings g) (audio_bytes g)).
Definition set_voice_settings (s : option (gmap string Q)) : M unit :=
  assign (fun g => Globals (elevenlabs_client g) (elevenlabs_configured g)
                     (selected_voice g) s (audio_bytes g)).
Definition set_audio_bytes (a : option bytes) : M unit :=
  assign (fun g => Globals (elevenlabs_client g) (elevenlabs_configured g)
                     (selected_voice g) (voice_settings g) (Some a)).

(** ** Start-up: lines 36-56 *)

Definition configure_elevenlabs (E : env) : M unit :=
  set_client None >>
  set_configured false >>
  try_except
    (let! elevenlabs_api_key := lift (secrets_get_key E) in
     if truthy_str elevenlabs_api_key then
       try_except
         (let! c := lift (ElevenLabs_new E elevenlabs_api_key) in
          set_client (Some c) >>
          emit Call_get_all >>
          let! test_voices_fetch := lift (get_all_probe E) in
          set_configured true)
         (fun e =>
            emit (St_error ("🚨 ElevenLabs client initialization or test voice fetch failed: " ++ exn_str e)) >>
            set_configured false)
     else set_configured false)
    (fun e =>
       emit (St_error ("🚨 An error occurred during ElevenLabs API key retrieval: " ++ exn_str e)) >>
       set_configured false).

(** ** The voice catalogue: lines 203-277 *)

(** [str(type(voices_result))], used in the warning for an unknown shape. *)
Definition type_repr (r : voices_value) : string :=
  match r with
  | VResponse _ =>
      "<class 'elevenlabs.types.get_voices_response.GetVoicesResponse'>"
  | VTuple _ => "<class 'tuple'>"
  | VList _ => "<class 'list'>"
  | VOther t => t
  end.

(** Lines 214-228: find the list of voice objects in the result. *)
Definition voices_list_objects (voices_result : voices_value) : M (list voice) :=
  match voices_result with
  | VResponse (Some l) => ret l
  | VTuple (_ :: ItemList l :: _) =>
      emit (St_info "Handled older ElevenLabs voices response tuple structure.") >>
      ret l
  | VList l =>
      emit (St_info "Handled ElevenLabs voices response as a direct list.") >>
      ret l
  | _ =>
      emit (St_warning ("Unexpected structure from elevenlabs_client.voices.get_all(): "
                          ++ type_repr voices_result ++ ". Cannot list voices.")) >>
      ret []
  end.

(** The warnings of lines 244 and 248. *)
Definition no_name_warning (v : voice) : event :=
  St_warning ("Item in voice list has unexpected structure (no .name): "
                ++ v_repr v ++ ". Skipping.").

Definition item_error_warning (v : voice) (e : exn) : event :=
  St_warning ("Error processing item in voice list " ++ v_repr v
                ++ ": " ++ exn_str e ++ ". Skipping.").

(** Lines 234-249: one pass of the loop body per item; [voice_names] is
    the list built so far. *)
Fixpoint extract_names (items : list voice) (voice_names : list py_name)
  : M (list py_name) :=
  match items with
  | [] => ret voice_names
  | v :: rest =>
      let! voice_names' :=
        try_except
          (match v_name v with
           | Name n => ret (voice_names ++ [n])%list
           | NoName => emit (no_name_warning v) >> ret voice_names
           | NameRaises e => raise e
           end)
          (fun e => emit (item_error_warning v e) >> ret voice_names) in
      extract_names rest voice_names'
  end.

(** Line 253: [list(set(voice_names))].  The set is a [gset]; its
    enumeration order, like Python's, is of no account once the list is
    sorted. *)
Definition set_to_list (voice_names : list py_name) : list py_name :=
  elements (list_to_set voice_names : gset py_name).

(** The strings among some names, in list order. *)
Definition strings_of (names : list py_name) : list string :=
  omap id names.

(** What [sort()] raises when it has to compare [None] with another
    value.  Which of the two types the message names first depends on the
    order in which the set was enumerated. *)
Definition sort_type_error : exn :=
  Exn "TypeError" "'<' not supported between instances of 'NoneType' and 'str'".

(** Line 254: [voice_names.sort()].  Strings are byte strings in UTF-8,
    on which the bytewise lexicographic order [String.le] agrees with Python's
    order by code point.  [None] cannot be compared: a list that holds it
    and has two items or more makes [sort] raise; a list of fewer than two
    items is returned without any comparison. *)
Definition py_sort (names : list py_name) : result (list py_name) :=
  if bool_decide (None ∈ names) then
    match names with
    | _ :: _ :: _ => Raise sort_type_error
    | _ => Ok names
    end
  else Ok (Some <$> merge_sort String.le (strings_of names)).

(** Lines 253-254 together. *)
Definition unique_sorted (voice_names : list py_name)
  : result (list py_name) :=
  py_sort (set_to_list voice_names).

(** [st.selectbox(label, options, index=0)]: the option the user picked,
    the first one when nothing else was picked. *)
Definition selectbox (options : list py_name) (picked : nat) : py_name :=
  match options !! picked with
  | Some o => o
  | None => hd None options
  end.

(** Lines 214-254: from the result of the listing call to the names offered
    in the select box. *)
Definition resolve_names (voices_result : voices_value)
  : M (list py_name) :=
  let! objects := voices_list_objects voices_result in
  let! names :=
    (if truthy_list objects then extract_names objects [] else ret []) in
  lift (unique_sorted names).

(** Lines 211-254. *)
Definition voice_names (E : env) : M (list py_name) :=
  emit Call_get_all >>
  let! voices_result := lift (get_all_catalog E) in
  resolve_names voices_result.

(** Line 272: the dictionary built from the two sliders. *)
Definition tone_parameters (stability clarity : Q) : gmap string Q :=
  <["clarity" := clarity]> (<["stability" := stability]> ∅).

(** Lines 203-277. *)
Definition voice_options (E : env) : M unit :=
  set_selected_voice None >>
  set_voice_settings None >>
  let! c := read elevenlabs_client in
  match c with
  | Some _ =>
      emit (St_text "Using ElevenLabs for human-like voice.") >>
      try_except
        (let! names := voice_names E in
         if truthy_list names then
           set_selected_voice (selectbox names (selectbox_index E))
         else
           emit (St_warning "No usable ElevenLabs voices found via API or extraction failed. Using default 'Rachel' (may fail if not available).") >>
           set_selected_voice (Some "Rachel"))
        (fun e =>
           emit (St_error ("Could not fetch or process ElevenLabs voices using client: "
                             ++ exn_str e)) >>
           set_selected_voice (Some "Rachel")) >>
      let stability := slider_stability E in
      let clarity := slider_clarity E in
      set_voice_settings (Some (tone_parameters stability clarity))
  | None =>
      emit (St_text "Using Google TTS (Standard voice) as ElevenLabs client is not configured.") >>
      set_selected_voice None >>
      set_voice_settings None
  end.

(** ** Speech synthesis: lines 102-165 *)

(** [bool(d)] for a dictionary: [len(d) != 0]. *)
Definition truthy_dict (d : gmap string Q) : bool := negb (Nat.eqb (size d) 0).

(** [d.get(key, fallback)]. *)
Definition dict_get (d : gmap string Q) (key : string) (fallback : Q) : Q :=
  default fallback (d !! key).

(** Lines 109-125. *)
Definition build_generate_params (text voice : string)
    (voice_settings : option (gmap string Q)) : generate_params :=
  GenerateParams text voice "eleven_multilingual_v2"
    (match voice_settings with
     | Some d =>
         if truthy_dict d then
           Some (mkVoiceSettings (dict_get d "stability" 0.5)
                                 (dict_get d "clarity" 0.75))
         else None
     | None => None
     end).

(** Lines 141-143: the [with] block.  The file is created under the name
    the operating system chose; [delete=False] keeps it when the block is
    left, normally or by an exception. *)
Definition stage_in_temp_file (E : env) (audio : bytes) : M string :=
  let! temp_path := lift (tmp_name E) in
  fun w =>
    match files w !! temp_path with
    | Some _ =>
        (Raise (Exn "FileExistsError" "No usable temporary file name found"), w)
    | None =>
        (update_files (insert temp_path []) >>
         match tmp_write E with
         | Some e => raise e
         | None => update_files (insert temp_path audio) >> ret temp_path
         end) w
    end.

(** Line 146: [Path(temp_path).unlink(missing_ok=True)]. *)
Definition unlink (E : env) (temp_path : string) : M unit :=
  match unlink_fails E with
  | Some e => raise e
  | None => update_files (delete temp_path)
  end.

(** Lines 108-148: the body of the [try]. *)
Definition elevenlabs_try_body (E : env) (text voice : string)
    (voice_settings : option (gmap string Q)) : M (option bytes) :=
  let generate_params := build_generate_params text voice voice_settings in
  emit (Call_generate generate_params) >>
  let! audio_stream := lift (generate E generate_params) in
  match audio_stream with
  | NotIterable =>
      emit (St_error "ElevenLabs generate did not return an iterable stream.") >>
      ret None
  | Stream chunks fails =>
      let! audio :=
        match fails with
        | Some e => raise e
        | None => ret (concat chunks)
        end in
      let! temp_path := stage_in_temp_file E audio in
      unlink E temp_path >>
      ret (Some audio)
  end.

Definition convert_text_to_speech_elevenlabs (E : env) (text voice : string)
    (voice_settings : option (gmap string Q)) : M (option bytes) :=
  let! c := read elevenlabs_client in
  if negb (truthy_str text) || negb (bool_decide (is_Some c)) then ret None
  else
    try_except
      (elevenlabs_try_body E text voice voice_settings)
      (fun e =>
         emit (St_error ("An error occurred during ElevenLabs speech conversion: "
                           ++ exn_str e)) >>
         ret None).

(** Lines 158-162: the body of the [try]. *)
Definition gtts_try_body (E : env) (text : string) : M (option bytes) :=
  emit (Call_gtts text) >>
  let! audio := lift (gtts_synth E text) in
  ret (Some audio).

Definition convert_text_to_speech_gtts (E : env) (text : string)
  : M (option bytes) :=
  if negb (truthy_str text) then ret None
  else
    try_except
      (gtts_try_body E text)
      (fun e =>
         emit (St_error ("An error occurred during gTTS conversion: " ++ exn_str e)) >>
         ret None).

(** ** Story generation: lines 60-99 *)

Definition newline : string := String (Ascii.ascii_of_nat 10) "".

Definition generate_story_from_image (E : env) (image_data : bytes)
    (prompt : string) : M string :=
  if negb (gemini_api_configured E) then
    ret "Story generation unavailable due to API configuration issues."
  else
    try_except
      (let img_bytes := image_data in
       let! response :=
         lift (vision_generate E img_bytes (newline ++ newline ++ prompt)) in
       match candidates response with
       | (text :: _) :: _ => ret text
       | _ =>
           emit (St_warning ("Unexpected response structure from Gemini: "
                               ++ response_repr response)) >>
           ret "Could not generate a story from the image. The response was empty or malformed."
       end)
      (fun e =>
         emit (St_error ("Gemini API Error: " ++ exn_str e)) >>
         ret ("An error occurred during story generation: " ++ exn_str e)).

(** ** The button handler: lines 296-320 *)

(** The condition of line 301. *)
Definition is_narrative (generated_story : string) : bool :=
  truthy_str generated_story
  && negb (startswith generated_story "An error occurred")
  && negb (startswith generated_story "Story generation unavailable")
  && negb (startswith generated_story "Could not generate").

(** [bool(selected_voice)]. *)
Definition truthy_voice (v : option string) : bool :=
  match v with Some s => truthy_str s | None => false end.

(** Lines 305-312. *)
Definition dispatch_speech (E : env) (generated_story : string) : M unit :=
  let! c := read elevenlabs_client in
  let! v := read selected_voice in
  if bool_decide (is_Some c) && truthy_voice v then
    let! s := read voice_settings in
    let! a := convert_text_to_speech_elevenlabs E generated_story
                (default "" v) s in
    set_audio_bytes a
  else
    let! a := convert_text_to_speech_gtts E generated_story in
    set_audio_bytes a.

(** Lines 314-318.  Reading a name that was never bound raises
    [NameError]. *)
Definition present_audio : M unit :=
  let! a := read audio_bytes in
  match a with
  | None => raise (Exn "NameError" "name 'audio_bytes' is not defined")
  | Some (Some data) =>
      if truthy_list data then
        emit (St_subheader "🗣️ Listen to the Story:") >>
        emit (St_audio data)
      else emit (St_warning "Could not generate audio for the story.")
  | Some None => emit (St_warning "Could not generate audio for the story.")
  end.

(** Lines 301-318, for a story already generated. *)
Definition speak_story (E : env) (generated_story : string) : M unit :=
  (if is_narrative generated_story then
     emit (St_subheader "📜 Generated Story:") >>
     emit (St_write generated_story) >>
     dispatch_speech E generated_story
   else ret tt) >>
  present_audio.

(** Lines 296-320.  [uploaded_image_bytes] is a [BytesIO] object or
    [None]; a [BytesIO] object is always true. *)
Definition create_story_and_speech (E : env)
    (uploaded_image_bytes : option bytes) (story_prompt : string) : M unit :=
  match uploaded_image_bytes with
  | Some image =>
      let! generated_story := generate_story_from_image E image story_prompt in
      speak_story E generated_story
  | None => emit (St_warning "Could not process the uploaded image.")
  end.

(** One run of the script in which the button is pressed. *)
Definition script (E : env) (uploaded_image_bytes : option bytes)
    (story_prompt : string) : M unit :=
  configure_elevenlabs E >>
  voice_options E >>
  create_story_and_speech E uploaded_image_bytes story_prompt.

(** ** Observations on a log *)

(** The log holds a call to the primary backend's synthesis. *)
Definition calls_primary (l : list event) : Prop :=
  ∃ p, Call_generate p ∈ l.

(** The log holds a call to the fallback backend. *)
Definition calls_fallback (l : list event) : Prop :=
  ∃ t, Call_gtts t ∈ l.

(** The log shows an audio player. *)
Definition shows_audio (l : list event) : Prop :=
  ∃ d, St_audio d ∈ l.

(** ** Auxiliary notions for the statements *)

(** The spec's clamping of a tone parameter to [0.0, 1.0], written as the
    Python idiom [max(0.0, min(1.0, x))].  It occurs nowhere in [app.py]; it
    is here to compare it with what the script sends. *)
Definition spec_clamp (x : Q) : Q :=
  let m := if Qle_bool 1 x then 1%Q else x in
  if Qle_bool m 0 then 0%Q else m.

(** The world after [st.error(msg)]. *)
Definition with_error (msg : string) (w : world) : world :=
  World (vars w) (files w) (log w ++ [St_error msg]).

(** ** What the name loop is expected to produce *)

(** The value of a record's name, when it has one that can be read. *)
Definition readable_name (v : voice) : option py_name :=
  match v_name v with
  | Name n => Some n
  | NoName | NameRaises _ => None
  end.

(** The names of the records that have one, in list order. *)
Definition readable_names (items : list voice) : list py_name :=
  omap readable_name items.

(** The strings among some names, without repeats, in ascending order. *)
Definition sorted_strings (names : list py_name) : list string :=
  merge_sort String.le (strings_of (set_to_list names)).

(** The warning owed to a record without a readable name. *)
Definition skip_warning (v : voice) : option event :=
  match v_name v with
  | Name _ => None
  | NoName => Some (no_name_warning v)
  | NameRaises e => Some (item_error_warning v e)
  end.

Definition skip_warnings (items : list voice) : list event :=
  omap skip_warning items.

(** The world after some more events. *)
Definition with_events (evs : list event) (w : world) : world :=
  World (vars w) (files w) (log w ++ evs).

(** ** Sentinels and speech events *)

(** The narrative is one of the failure strings of
    [generate_story_from_image], as line 301 recognises them. *)
Definition matches_sentinel (generated_story : string) : bool :=
  startswith generated_story "An error occurred"
  || startswith generated_story "Story generation unavailable"
  || startswith generated_story "Could not generate".

(** Events that are a synthesis call or an audio player. *)
Definition speech_event (e : event) : bool :=
  match e with
  | Call_generate _ | Call_gtts _ | St_audio _ => true
  | _ => false
  end.

Definition speechless (evs : list event) : Prop :=
  Forall (fun e => speech_event e = false) evs.

(** ** Sample runs

    Concrete answers of the outside world, used to run the script. *)

Definition sample_voices : list voice :=
  [ Voice (Name (Some "Rachel")) "Voice(name='Rachel')";
    Voice NoName "{'voice_id': 'x1'}";
    Voice (Name (Some "Aria")) "Voice(name='Aria')";
    Voice (Name (Some "Rachel")) "Voice(name='Rachel')" ].

(** A listing in which one record has no name set. *)
Definition voices_with_None : list voice :=
  [ Voice NoName "{'voice_id': 'x1'}";
    Voice (Name None) "Voice(name=None)";
    Voice (Name (Some "Aria")) "Voice(name='Aria')" ].

Definition sample_audio : bytes := [Byte.x49; Byte.x44; Byte.x33].

Definition sample_story : string := "Once upon a time there was a lighthouse.".

(** Every service answers. *)
Definition env_all_good : env :=
  Env (Ok "sk-test")
      (fun k => Ok (Client k))
      (Ok (VResponse (Some sample_voices)))
      (Ok (VResponse (Some sample_voices)))
      (fun _ => Ok (Stream [[Byte.x49]; [Byte.x44; Byte.x33]] None))
      (fun _ => Ok sample_audio)
      (Ok "/tmp/tmpk3x9.mp3") None None
      0%nat 0.3 0.9
      true
      (fun _ _ => Ok (GeminiResponse [[sample_story]] "response")).

(** The key is there and the client is built, but every listing call is
    refused. *)
Definition env_probe_fails : env :=
  Env (Ok "sk-test")
      (fun k => Ok (Client k))
      (Raise (Exn "ApiError" "status_code: 401"))
      (Raise (Exn "ApiError" "status_code: 401"))
      (fun _ => Ok (Stream [[Byte.x49]; [Byte.x44; Byte.x33]] None))
      (fun _ => Ok sample_audio)
      (Ok "/tmp/tmpk3x9.mp3") None None
      0%nat 0.5 0.75
      true
      (fun _ _ => Ok (GeminiResponse [[sample_story]] "response")).

(** The disk is full when the audio is staged. *)
Definition env_disk_full : env :=
  Env (Ok "sk-test")
      (fun k => Ok (Client k))
      (Ok (VResponse (Some sample_voices)))
      (Ok (VResponse (Some sample_voices)))
      (fun _ => Ok (Stream [[Byte.x49]; [Byte.x44; Byte.x33]] None))
      (fun _ => Ok sample_audio)
      (Ok "/tmp/tmpk3x9.mp3")
      (Some (Exn "OSError" "[Errno 28] No space left on device"))
      None
      0%nat 0.3 0.9
      true
      (fun _ _ => Ok (GeminiResponse [[sample_story]] "response")).

(** Both synthesis services refuse the request. *)
Definition env_synthesis_fails : env :=
  Env (Ok "sk-test")
      (fun k => Ok (Client k))
      (Ok (VResponse (Some sample_voices)))
      (Ok (VResponse (Some sample_voices)))
      (fun _ => Raise (Exn "ApiError" "quota_exceeded"))
      (fun _ => Raise (Exn "gTTSError" "Failed to connect"))
      (Ok "/tmp/tmpk3x9.mp3") None None
      0%nat 0.3 0.9
      true
      (fun _ _ => Ok (GeminiResponse [[sample_story]] "response")).

(** Gemini raises. *)
Definition env_gemini_fails : env :=
  Env (Ok "sk-test")
      (fun k => Ok (Client k))
      (Ok (VResponse (Some sample_voices)))
      (Ok (VResponse (Some sample_voices)))
      (fun _ => Ok (Stream [[Byte.x49]; [Byte.x44; Byte.x33]] None))
      (fun _ => Ok sample_audio)
      (Ok "/tmp/tmpk3x9.mp3") None None
      0%nat 0.3 0.9
      true
      (fun _ _ => Raise (Exn "ResourceExhausted" "429 quota")).

(** The script's variables once a client exists and the voice options
    have run. *)
Definition world_with_client : world :=
  World (Globals (Some (Client "sk-test")) true (Some "Aria")
           (Some (tone_parameters 0.3 0.9)) None)
        ∅ [].

(** The probe succeeds at start-up, the listing call of the voice options
    raises. *)
Definition env_catalog_fails : env :=
  Env (Ok "sk-test")
      (fun k => Ok (Client k))
      (Ok (VResponse (Some sample_voices)))
      (Raise (Exn "ApiError" "status_code: 503"))
      (fun _ => Ok (Stream [[Byte.x49]; [Byte.x44; Byte.x33]] None))
      (fun _ => Ok sample_audio)
      (Ok "/tmp/tmpk3x9.mp3") None None
      0%nat 0.3 0.9
      true
      (fun _ _ => Ok (GeminiResponse [[sample_story]] "response")).

(** ** Gemini configuration: lines 19-33 *)

(** What the Gemini set-up meets: the secret lookup
    [st.secrets["GEMINI_API_KEY"]] (a [KeyError] when the key is absent),
    [genai.configure] and the two [genai.GenerativeModel] constructions. *)
Record gemini_env := GeminiEnv {
  secrets_gemini_key : result string;
  genai_configure : string -> option exn;
  vision_model_new : option exn;
  text_model_new : option exn
}.

(** [isinstance(e, KeyError)], by class name. *)
Definition is_KeyError (e : exn) : bool := String.eqb (exn_class e) "KeyError".

(** A call made for its effect only. *)
Definition call (r : option exn) : M unit :=
  match r with
  | Some e => raise e
  | None => ret tt
  end.

(** Lines 20-33; the value returned is [gemini_api_configured]. *)
Definition configure_gemini (G : gemini_env) : M bool :=
  try_except
    (let! gemini_api_key := lift (secrets_gemini_key G) in
     call (genai_configure G gemini_api_key) >>
     call (vision_model_new G) >>
     call (text_model_new G) >>
     ret true)
    (fun e =>
       if is_KeyError e then
         emit (St_error "🚨 Gemini API Key not found. Please add it to your Streamlit secrets (.streamlit/secrets.toml).") >>
         ret false
       else
         emit (St_error ("🚨 An error occurred during Gemini API configuration: "
                           ++ exn_str e)) >>
         ret false).

(** The services of [E] with [gemini_api_configured] as start-up left it. *)
Definition with_gemini_flag (E : env) (flag : bool) : env :=
  Env (secrets_get_key E) (ElevenLabs_new E) (get_all_probe E)
      (get_all_catalog E) (generate E) (gtts_synth E) (tmp_name E)
      (tmp_write E) (unlink_fails E) (selectbox_index E) (slider_stability E)
      (slider_clarity E) flag (vision_generate E).

(** ** The page: lines 171-190 and 280-329 *)

(** What the user does on the page, and how the uploaded file behaves. *)
Record page_inputs := PageInputs {
  (* st.file_uploader: None, or the content of the uploaded file *)
  file_uploader : option bytes;
  (* lines 182-186: Image.open, the display, seek and getvalue *)
  open_image_fails : option exn;
  (* st.text_area *)
  story_prompt : string;
  (* the user clicked the button in this run *)
  button_clicked : bool;
  (* lines 290-291: seek and getvalue after the click *)
  reread_fails : option exn
}.

(** [x is not None]. *)
Definition is_not_None {A} (x : option A) : bool :=
  match x with Some _ => true | None => false end.

(** Lines 175-190: the values of [uploaded_file] and
    [uploaded_image_bytes] after the upload column. *)
Definition upload_section (P : page_inputs)
  : M (option bytes * option bytes) :=
  match file_uploader P with
  | Some file =>
      try_except
        (call (open_image_fails P) >>
         ret (Some file, Some file))
        (fun e =>
           emit (St_error ("Error opening image: " ++ exn_str e)) >>
           ret (None, None))
  | None => ret (None, None)
  end.

(** Line 283. *)
Definition button_disabled (E : env) (uploaded_file : option bytes) : bool :=
  negb (gemini_api_configured E) || negb (is_not_None uploaded_file).

(** [st.button(label, disabled=...)]: a disabled button is never
    pressed. *)
Definition st_button (clicked disabled : bool) : bool :=
  clicked && negb disabled.

(** Lines 283-329.  An uploaded file object is always true, so
    [if uploaded_file] asks whether it is [None]. *)
Definition button_section (E : env) (P : page_inputs)
    (uploaded_file : option bytes) : M unit :=
  if st_button (button_clicked P) (button_disabled E uploaded_file) then
    if is_not_None uploaded_file && truthy_str (story_prompt P) then
      let! uploaded_image_bytes :=
        try_except
          (call (reread_fails P) >> ret uploaded_file)
          (fun e =>
             emit (St_error ("Could not re-read uploaded file: " ++ exn_str e)) >>
             ret None) in
      create_story_and_speech E uploaded_image_bytes (story_prompt P)
    else if negb (is_not_None uploaded_file) then
      emit (St_warning "Please upload an image first.")
    else if negb (truthy_str (story_prompt P)) then
      emit (St_warning "Please enter a story prompt.")
    else ret tt
  else if negb (gemini_api_configured E) then
    emit (St_warning "Cannot generate story. Please ensure the Gemini API key is correctly configured.")
  else if negb (is_not_None uploaded_file) then
    emit (St_warning "Please upload an image to enable the button.")
  else ret tt.

(** Lines 171-329: the two columns. *)
Definition page (E : env) (P : page_inputs) : M unit :=
  let! uploaded := upload_section P in
  voice_options E >>
  button_section E P (fst uploaded).

(** One run of [app.py] from the top. *)
Definition app (G : gemini_env) (E : env) (P : page_inputs) : M unit :=
  let! gemini_api_configured := configure_gemini G in
  let E' := with_gemini_flag E gemini_api_configured in
  configure_elevenlabs E' >>
  page E' P.

(** ** More notions for the statements *)

(** The list of records that lines 216-228 find in a listing result, if
    its shape is one of the three they know. *)
Definition shape_records (r : voices_value) : option (list voice) :=
  match r with
  | VResponse (Some l) => Some l
  | VTuple (_ :: ItemList l :: _) => Some l
  | VList l => Some l
  | _ => None
  end.

(** The names a listing result gives rise to, or the exception of the
    sort. *)
Definition catalogue_names (r : voices_value) : result (list py_name) :=
  unique_sorted (readable_names (default [] (shape_records r))).

(** Start-up cannot build a client: the key lookup raises, the key is
    empty, or the constructor raises. *)
Definition client_unavailable (E : env) : Prop :=
  (∃ e, secrets_get_key E = Raise e)
  ∨ (∃ key, secrets_get_key E = Ok key
            ∧ (truthy_str key = false ∨ ∃ e, ElevenLabs_new E key = Raise e)).

(** Something raised while start-up tried to reach ElevenLabs. *)
Definition startup_failure (E : env) : Prop :=
  (∃ e, secrets_get_key E = Raise e)
  ∨ (∃ key, secrets_get_key E = Ok key ∧ truthy_str key = true
            ∧ ((∃ e, ElevenLabs_new E key = Raise e)
               ∨ (∃ c e, ElevenLabs_new E key = Ok c
                         ∧ get_all_probe E = Raise e))).

(** What is shown in place of, or as, the player at lines 314-318. *)
Definition audio_outcome (a : option bytes) : list event :=
  match a with
  | Some (b :: data) =>
      [St_subheader "🗣️ Listen to the Story:"; St_audio (b :: data)]
  | _ => [St_warning "Could not generate audio for the story."]
  end.

(** ** More sample runs *)

(** No ElevenLabs key in the secrets. *)
Definition env_no_key : env :=
  Env (Ok "")
      (fun k => Ok (Client k))
      (Ok (VResponse (Some sample_voices)))
      (Ok (VResponse (Some sample_voices)))
      (fun _ => Ok (Stream [[Byte.x49]; [Byte.x44; Byte.x33]] None))
      (fun _ => Ok sample_audio)
      (Ok "/tmp/tmpk3x9.mp3") None None
      0%nat 0.3 0.9
      true
      (fun _ _ => Ok (GeminiResponse [[sample_story]] "response")).

(** The listing holds a record whose name is [None] beside a named one. *)
Definition env_None_name : env :=
  Env (Ok "sk-test")
      (fun k => Ok (Client k))
      (Ok (VResponse (Some voices_with_None)))
      (Ok (VResponse (Some voices_with_None)))
      (fun _ => Ok (Stream [[Byte.x49]; [Byte.x44; Byte.x33]] None))
      (fun _ => Ok sample_audio)
      (Ok "/tmp/tmpk3x9.mp3") None None
      0%nat 0.3 0.9
      true
      (fun _ _ => Ok (GeminiResponse [[sample_story]] "response")).

(** The listing call answers with a dictionary. *)
Definition env_odd_catalog : env :=
  Env (Ok "sk-test")
      (fun k => Ok (Client k))
      (Ok (VOther "<class 'dict'>"))
      (Ok (VOther "<class 'dict'>"))
      (fun _ => Ok (Stream [[Byte.x49]; [Byte.x44; Byte.x33]] None))
      (fun _ => Ok sample_audio)
      (Ok "/tmp/tmpk3x9.mp3") None None
      0%nat 0.3 0.9
      true
      (fun _ _ => Ok (GeminiResponse [[sample_story]] "response")).

(** The temporary file cannot be removed. *)
Definition env_unlink_fails : env :=
  Env (Ok "sk-test")
      (fun k => Ok (Client k))
      (Ok (VResponse (Some sample_voices)))
      (Ok (VResponse (Some sample_voices)))
      (fun _ => Ok (Stream [[Byte.x49]; [Byte.x44; Byte.x33]] None))
      (fun _ => Ok sample_audio)
      (Ok "/tmp/tmpk3x9.mp3") None
      (Some (Exn "PermissionError" "[Errno 13] Permission denied"))
      0%nat 0.3 0.9
      true
      (fun _ _ => Ok (GeminiResponse [[sample_story]] "response")).

(** Gemini answers without candidates. *)
Definition env_gemini_empty : env :=
  Env (Ok "sk-test")
      (fun k => Ok (Client k))
      (Ok (VResponse (Some sample_voices)))
      (Ok (VResponse (Some sample_voices)))
      (fun _ => Ok (Stream [[Byte.x49]; [Byte.x44; Byte.x33]] None))
      (fun _ => Ok sample_audio)
      (Ok "/tmp/tmpk3x9.mp3") None None
      0%nat 0.3 0.9
      true
      (fun _ _ => Ok (GeminiResponse [] "response")).

Definition sample_image : bytes := [Byte.x89; Byte.x50; Byte.x4e; Byte.x47].

(** A picture is uploaded, the prompt is the default one, the button is
    clicked. *)
Definition inputs_all_good : page_inputs :=
  PageInputs (Some sample_image) None
    "Tell a short, imaginative story based on this image." true None.




Definition gemini_all_good : gemini_env :=
  GeminiEnv (Ok "g-key") (fun _ => None) None None.

(** Events that only put something on the page: no call to a speech
    service, no audio player. *)
Definition ui_message (e : event) : bool :=
  match e with
  | St_error _ | St_warning _ | St_info _ | St_text _
  | St_subheader _ | St_write _ => true
  | St_audio _ | Call_get_all | Call_generate _ | Call_gtts _ => false
  end.

Definition ui_messages (evs : list event) : Prop :=
  Forall (fun e => ui_message e = true) evs.

(** Events that reach ElevenLabs. *)
Definition elevenlabs_event (e : event) : bool :=
  match e with
  | Call_get_all | Call_generate _ => true
  | _ => false
  end.

(** The value of [selected_voice] that lines 256-264 draw from a listing
    result. *)
Definition voice_choice (E : env) (r : voices_value) : py_name :=
  match catalogue_names r with
  | Ok [] => Some "Rachel"
  | Ok (n :: names) => selectbox (n :: names) (selectbox_index E)
  | Raise _ => Some "Rachel"
  end.

(** The voice the select box yields for a listing result, as a string
    (empty when the value selected is [None]). *)
Definition voice_for (E : env) (r : voices_value) : string :=
  default "" (voice_choice E r).

(** * Properties *)

Ltac unfold_monad :=
  unfold bind, ret, raise, try_except, lift, emit, read, assign,
    update_files in *.

(** Case analysis on every answer of the outside world that the goal
    inspects. *)
Ltac case_oracles :=
  repeat (match goal with
          | |- context [match ?x with _ => _ end] =>
              lazymatch x with
              | context [match _ with _ => _ end] => fail
              | _ => destruct x eqn:?
              end
          end; simpl).

Ltac tidy_log := rewrite <- ?app_assoc; simpl.

(** Membership of an event in an explicit log. *)
Ltac find_in_log :=
  repeat first [apply list_elem_of_here | apply list_elem_of_further].

(** ** Dictionaries and tone parameters *)

Lemma truthy_dict_nonempty (d : gmap string Q) :
  truthy_dict d = true ↔ d ≠ ∅.
Proof.
  unfold truthy_dict. rewrite negb_true_iff, Nat.eqb_neq.
  by rewrite map_size_empty_iff.
Qed.

Lemma truthy_dict_empty : truthy_dict ∅ = false.
Proof. reflexivity. Qed.

Lemma tone_parameters_truthy s c : truthy_dict (tone_parameters s c) = true.
Proof. apply truthy_dict_nonempty, insert_non_empty. Qed.

Lemma tone_parameters_stability s c :
  dict_get (tone_parameters s c) "stability" 0.5 = s.
Proof.
  unfold dict_get, tone_parameters.
  rewrite lookup_insert_ne by done. by rewrite lookup_insert_eq.
Qed.

Lemma tone_parameters_clarity s c :
  dict_get (tone_parameters s c) "clarity" 0.75 = c.
Proof. unfold dict_get, tone_parameters. by rewrite lookup_insert_eq. Qed.

Lemma build_generate_params_tone text voice s c :
  build_generate_params text voice (Some (tone_parameters s c)) =
  GenerateParams text voice "eleven_multilingual_v2"
    (Some (mkVoiceSettings s c)).
Proof.
  unfold build_generate_params.
  by rewrite tone_parameters_truthy, tone_parameters_stability,
    tone_parameters_clarity.
Qed.

Lemma spec_clamp_in_range (x : Q) : (0 <= x)%Q → (x <= 1)%Q → (spec_clamp x == x)%Q.
Proof.
  intros H0 H1. unfold spec_clamp.
  destruct (Qle_bool 1 x) eqn:E1.
  - apply Qle_bool_iff in E1.
    assert (x == 1)%Q as Hx by (by apply Qle_antisym).
    destruct (Qle_bool 1 0) eqn:E2; [discriminate E2 | by symmetry].
  - destruct (Qle_bool x 0) eqn:E2; [| reflexivity].
    apply Qle_bool_iff in E2. by apply Qle_antisym.
Qed.

(** ** The primary path, step by step *)

(** With text and a client the function is its [try] statement. *)
Lemma convert_elevenlabs_guard_passed E text voice vs w :
  truthy_str text = true →
  is_Some (elevenlabs_client (vars w)) →
  convert_text_to_speech_elevenlabs E text voice vs w =
  try_except
    (elevenlabs_try_body E text voice vs)
    (fun e =>
       emit (St_error ("An error occurred during ElevenLabs speech conversion: "
                         ++ exn_str e)) >>
       ret None) w.
Proof.
  intros Ht Hc. unfold convert_text_to_speech_elevenlabs.
  unfold bind at 1. unfold read. rewrite Ht.
  by rewrite (bool_decide_eq_true_2 _ Hc).
Qed.

(** Without text or without a client nothing happens at all. *)
Lemma convert_elevenlabs_guard_failed E text voice vs w :
  truthy_str text = false ∨ elevenlabs_client (vars w) = None →
  convert_text_to_speech_elevenlabs E text voice vs w = (Ok None, w).
Proof.
  intros H. unfold convert_text_to_speech_elevenlabs.
  unfold bind, read, ret. destruct H as [-> | ->]; [done |].
  rewrite bool_decide_eq_false_2; [by rewrite orb_true_r |].
  by intros [? ?].
Qed.

(** The first thing the [try] body does is the call to [generate], with the
    parameters of lines 109-125. *)
Lemma elevenlabs_try_body_log E text voice vs w :
  ∃ rest,
    log (snd (elevenlabs_try_body E text voice vs w)) =
    (log w ++ Call_generate (build_generate_params text voice vs) :: rest)%list.
Proof.
  unfold elevenlabs_try_body, stage_in_temp_file, unlink. unfold_monad. simpl.
  case_oracles; tidy_log; eauto.
Qed.


(** ** Empty text *)

(** C6: with an empty text both synthesis helpers return [None] and leave
    the world as it was: no backend call is logged, no file is touched. *)
Theorem empty_text_yields_no_result E voice vs w :
  convert_text_to_speech_elevenlabs E "" voice vs w = (Ok None, w)
  ∧ convert_text_to_speech_gtts E "" w = (Ok None, w).
Proof. split; reflexivity. Qed.

(** ** The settings payload *)

(** The function itself forwards whatever number it is given: nothing in
    lines 117-125 compares a value with 0.0 or 1.0. *)
Lemma settings_forwarded_unchanged text voice (s c : Q) :
  gp_voice_settings (build_generate_params text voice (Some (tone_parameters s c)))
  = Some (mkVoiceSettings s c).
Proof. by rewrite build_generate_params_tone. Qed.

Example out_of_range_value_is_forwarded :
  gp_voice_settings
    (build_generate_params "hi" "Rachel" (Some (tone_parameters 1.5 0.75)))
  = Some (mkVoiceSettings 1.5 0.75).
Proof. apply settings_forwarded_unchanged. Qed.




(** ** Missing keys *)

(** C10, as stated, fails for the empty dictionary: it omits both keys, yet
    the request goes out without any settings. *)
Lemma empty_settings_send_no_payload :
  log (snd (convert_text_to_speech_elevenlabs env_all_good "hi" "Rachel"
              (Some ∅) world_with_client))
  = [Call_generate (GenerateParams "hi" "Rachel" "eleven_multilingual_v2" None)]
  ∧ ¬ ∃ p payload,
        Call_generate p ∈
          log (snd (convert_text_to_speech_elevenlabs env_all_good "hi"
                      "Rachel" (Some ∅) world_with_client))
        ∧ gp_voice_settings p = Some payload
        ∧ stability payload = 0.5%Q ∧ similarity_boost payload = 0.75%Q.
Proof.
  assert (log (snd (convert_text_to_speech_elevenlabs env_all_good "hi"
                      "Rachel" (Some ∅) world_with_client))
          = [Call_generate
               (GenerateParams "hi" "Rachel" "eleven_multilingual_v2" None)])
    as Hlog by (vm_compute; reflexivity).
  split; [exact Hlog |].
  rewrite Hlog. intros (p & payload & Hin & Hp & _).
  apply list_elem_of_singleton in Hin. injection Hin as ->. discriminate Hp.
Qed.

(** C10, amended: with text and a client, the request carries settings
    exactly when the dictionary is not empty.  In these settings a missing
    "stability" is 0.5 and a missing "clarity" is 0.75, while a key that is
    present passes its value.  An empty dictionary is treated like no
    settings: the request is sent without a settings payload. *)
Theorem missing_keys_take_defaults E text voice (d : gmap string Q) w :
  truthy_str text = true →
  is_Some (elevenlabs_client (vars w)) →
  ∃ settings rest,
    log (snd (convert_text_to_speech_elevenlabs E text voice (Some d) w))
    = (log w ++ Call_generate
                  (GenerateParams text voice "eleven_multilingual_v2"
                     settings) :: rest)%list
    ∧ (d = ∅ → settings = None)
    ∧ (d ≠ ∅ →
       ∃ payload,
         settings = Some payload
         ∧ (d !! "stability" = None → stability payload = 0.5%Q)
         ∧ (d !! "clarity" = None → similarity_boost payload = 0.75%Q)
         ∧ (∀ x, d !! "stability" = Some x → stability payload = x)
         ∧ (∀ x, d !! "clarity" = Some x → similarity_boost payload = x)).
Proof.
  intros Ht Hc.
  rewrite convert_elevenlabs_guard_passed by done.
  destruct (elevenlabs_try_body_log E text voice (Some d) w) as [rest Hlog].
  exists (gp_voice_settings (build_generate_params text voice (Some d))).
  assert (∃ rest',
            log (snd (try_except
                        (elevenlabs_try_body E text voice (Some d))
                        (fun e =>
                           emit (St_error ("An error occurred during ElevenLabs speech conversion: "
                                             ++ exn_str e)) >>
                           ret None) w))
            = (log w ++ Call_generate (build_generate_params text voice (Some d))
                 :: rest')%list) as [rest' Hlog'].
  { unfold try_except.
    destruct (elevenlabs_try_body E text voice (Some d) w) as [[r|e] w1];
      simpl in *.
    - by exists rest.
    - eexists. unfold_monad. simpl. rewrite Hlog. tidy_log. done. }
  exists rest'. split; [exact Hlog' |].
  unfold build_generate_params. simpl. split.
  - intros ->. reflexivity.
  - intros Hd. rewrite (proj2 (truthy_dict_nonempty d) Hd).
    eexists. split; [reflexivity |]. unfold dict_get. simpl.
    repeat split; try done; by intros; simplify_option_eq.
Qed.

(** A dictionary with "clarity" only: stability falls back to 0.5. *)
Lemma missing_keys_take_defaults_witness :
  ∃ payload rest,
    log (snd (convert_text_to_speech_elevenlabs env_all_good "hi" "Rachel"
                (Some {[ "clarity" := 0.9%Q ]}) world_with_client))
    = (Call_generate
         (GenerateParams "hi" "Rachel" "eleven_multilingual_v2"
            (Some payload)) :: rest)
    ∧ stability payload = 0.5%Q
    ∧ similarity_boost payload = 0.9%Q.
Proof.
  destruct (missing_keys_take_defaults env_all_good "hi" "Rachel"
              {[ "clarity" := 0.9%Q ]} world_with_client)
    as (settings & rest & Hlog & _ & Hfull).
  - reflexivity.
  - simpl. eauto.
  - destruct Hfull as (payload & -> & Hs & _ & _ & Hc).
    + apply insert_non_empty.
    + exists payload, rest. split; [exact Hlog |]. split.
      * apply Hs. reflexivity.
      * apply Hc. reflexivity.
Defined.

(** ** Exceptions on the synthesis paths *)

Lemma convert_gtts_guard_passed E text w :
  truthy_str text = true →
  convert_text_to_speech_gtts E text w =
  try_except
    (gtts_try_body E text)
    (fun e =>
       emit (St_error ("An error occurred during gTTS conversion: " ++ exn_str e)) >>
       ret None) w.
Proof. intros Ht. unfold convert_text_to_speech_gtts. by rewrite Ht. Qed.

Lemma convert_elevenlabs_returns E text voice vs w :
  ∃ r w', convert_text_to_speech_elevenlabs E text voice vs w = (Ok r, w').
Proof.
  destruct (truthy_str text) eqn:Ht; cycle 1.
  { rewrite convert_elevenlabs_guard_failed by auto. eauto. }
  destruct (elevenlabs_client (vars w)) as [cl|] eqn:Hc; cycle 1.
  { rewrite convert_elevenlabs_guard_failed by auto. eauto. }
  rewrite convert_elevenlabs_guard_passed by (rewrite ?Hc; eauto).
  unfold try_except.
  destruct (elevenlabs_try_body E text voice vs w) as [[r|e] w1];
    unfold_monad; simpl; eauto.
Qed.

Lemma convert_gtts_returns E text w :
  ∃ r w', convert_text_to_speech_gtts E text w = (Ok r, w').
Proof.
  unfold convert_text_to_speech_gtts.
  destruct (truthy_str text); simpl; [| unfold ret; eauto].
  unfold try_except.
  destruct (gtts_try_body E text w) as [[r|e] w1];
    unfold_monad; simpl; eauto.
Qed.

(** An exception of any step of the primary path ends the [try] body. *)
Lemma elevenlabs_try_body_raises_on_generate E text voice vs w e :
  generate E (build_generate_params text voice vs) = Raise e →
  ∃ w1, elevenlabs_try_body E text voice vs w = (Raise e, w1).
Proof.
  intros Hg. unfold elevenlabs_try_body. unfold_monad. simpl.
  rewrite Hg. eauto.
Qed.

Lemma gtts_try_body_raises E text w e :
  gtts_synth E text = Raise e →
  ∃ w1, gtts_try_body E text w = (Raise e, w1).
Proof.
  intros Hg. unfold gtts_try_body. unfold_monad. simpl. rewrite Hg. eauto.
Qed.

(** C5: neither synthesis helper ever ends in an exception; and when the
    guarded part of a helper raises [e], the helper logs [st.error] with a
    message that ends in [str(e)] and returns [None]. *)
Theorem synthesis_exceptions_are_contained E text voice vs w :
  (∃ r w', convert_text_to_speech_elevenlabs E text voice vs w = (Ok r, w'))
  ∧ (∃ r w', convert_text_to_speech_gtts E text w = (Ok r, w'))
  ∧ (∀ e w1,
       truthy_str text = true →
       is_Some (elevenlabs_client (vars w)) →
       elevenlabs_try_body E text voice vs w = (Raise e, w1) →
       convert_text_to_speech_elevenlabs E text voice vs w =
       (Ok None,
        with_error ("An error occurred during ElevenLabs speech conversion: "
                      ++ exn_str e) w1))
  ∧ (∀ e w1,
       truthy_str text = true →
       gtts_try_body E text w = (Raise e, w1) →
       convert_text_to_speech_gtts E text w =
       (Ok None,
        with_error ("An error occurred during gTTS conversion: " ++ exn_str e) w1)).
Proof.
  split; [apply convert_elevenlabs_returns |].
  split; [apply convert_gtts_returns |].
  split.
  - intros e w1 Ht Hc Hbody.
    rewrite convert_elevenlabs_guard_passed by done.
    unfold try_except. by rewrite Hbody.
  - intros e w1 Ht Hbody.
    rewrite convert_gtts_guard_passed by done.
    unfold try_except. by rewrite Hbody.
Qed.

(** Both services refuse: each helper reports and returns [None]. *)
Lemma synthesis_exceptions_are_contained_witness :
  convert_text_to_speech_elevenlabs env_synthesis_fails sample_story "Aria"
    None world_with_client =
  (Ok None,
   with_error "An error occurred during ElevenLabs speech conversion: quota_exceeded"
     (World (vars world_with_client) ∅
        [Call_generate (build_generate_params sample_story "Aria" None)]))
  ∧ convert_text_to_speech_gtts env_synthesis_fails sample_story
      world_with_client =
    (Ok None,
     with_error "An error occurred during gTTS conversion: Failed to connect"
       (World (vars world_with_client) ∅ [Call_gtts sample_story])).
Proof.
  destruct (synthesis_exceptions_are_contained env_synthesis_fails
              sample_story "Aria" None world_with_client)
    as (_ & _ & Hprimary & Hfallback).
  split.
  - apply (Hprimary (Exn "ApiError" "quota_exceeded")).
    + reflexivity.
    + simpl. eauto.
    + reflexivity.
  - apply (Hfallback (Exn "gTTSError" "Failed to connect")).
    + reflexivity.
    + reflexivity.
Defined.

(** ** The staged file *)

(** X9: when staging and removal both work, the files are what they were,
    on every path through the helper. *)
Lemma files_restored_when_staging_works E text voice vs w :
  tmp_write E = None →
  unlink_fails E = None →
  files (snd (convert_text_to_speech_elevenlabs E text voice vs w)) = files w.
Proof.
  intros Hw Hu.
  destruct (truthy_str text) eqn:Ht; cycle 1.
  { by rewrite convert_elevenlabs_guard_failed by auto. }
  destruct (elevenlabs_client (vars w)) as [cl|] eqn:Hc; cycle 1.
  { by rewrite convert_elevenlabs_guard_failed by auto. }
  rewrite convert_elevenlabs_guard_passed by (rewrite ?Hc; eauto).
  unfold try_except, elevenlabs_try_body, stage_in_temp_file, unlink.
  rewrite Hw, Hu. unfold_monad. simpl.
  case_oracles; try done.
  rewrite insert_insert_eq. by apply delete_insert_id.
Qed.

(** C9 fails when the write inside the [with] block raises: the helper
    returns [None], the [unlink] of line 146 is never reached and the file
    created by [NamedTemporaryFile(delete=False)] stays behind. *)
Theorem temp_file_left_after_failed_write :
  let r := convert_text_to_speech_elevenlabs env_disk_full sample_story
             "Aria" None world_with_client in
  files world_with_client !! "/tmp/tmpk3x9.mp3" = None
  ∧ fst r = Ok None
  ∧ files (snd r) !! "/tmp/tmpk3x9.mp3" = Some []
  ∧ files (snd r) ≠ files world_with_client.
Proof.
  assert (files (snd (convert_text_to_speech_elevenlabs env_disk_full
                        sample_story "Aria" None world_with_client))
            !! "/tmp/tmpk3x9.mp3" = Some []) as Hleft
    by (vm_compute; reflexivity).
  intros r. subst r.
  split; [reflexivity |].
  split; [vm_compute; reflexivity |].
  split; [exact Hleft |].
  intros Heq. rewrite Heq in Hleft. discriminate Hleft.
Qed.

(** ** The voice catalogue *)

(** The loop never aborts: it returns every readable name, in order, and
    logs one warning for every other item. *)
Lemma extract_names_spec items : ∀ acc w,
  extract_names items acc w =
  (Ok (acc ++ readable_names items)%list, with_events (skip_warnings items) w).
Proof.
  induction items as [|v rest IH]; intros acc w.
  - simpl. unfold ret, with_events. rewrite !app_nil_r. by destruct w.
  - simpl. unfold readable_names, skip_warnings. simpl.
    unfold readable_name, skip_warning.
    unfold bind at 1. unfold try_except.
    destruct (v_name v) as [|n|e]; unfold_monad; simpl; rewrite IH;
      unfold with_events; simpl; tidy_log; done.
Qed.

Lemma readable_names_elem (n : py_name) items :
  n ∈ readable_names items ↔ ∃ v, v ∈ items ∧ v_name v = Name n.
Proof.
  unfold readable_names. rewrite list_elem_of_omap. unfold readable_name.
  split.
  - intros (v & Hin & Hn). exists v. split; [done |].
    destruct (v_name v); congruence.
  - intros (v & Hin & Hn). exists v. by rewrite Hn.
Qed.

Lemma skip_warnings_elem v items :
  v ∈ items → v_name v = NoName → no_name_warning v ∈ skip_warnings items.
Proof.
  intros Hin Hn. unfold skip_warnings. apply list_elem_of_omap.
  exists v. split; [done |]. unfold skip_warning. by rewrite Hn.
Qed.


(** *** Deduplication and sorting *)

Lemma set_to_list_elem (x : py_name) l : x ∈ set_to_list l ↔ x ∈ l.
Proof. unfold set_to_list. by rewrite elem_of_elements, elem_of_list_to_set. Qed.

Lemma set_to_list_NoDup l : NoDup (set_to_list l).
Proof. unfold set_to_list. apply NoDup_elements. Qed.

Lemma strings_of_elem s (l : list py_name) : s ∈ strings_of l ↔ Some s ∈ l.
Proof.
  unfold strings_of. rewrite list_elem_of_omap. split.
  - intros (x & Hx & Hs). simpl in Hs. by subst.
  - intros H. by exists (Some s).
Qed.

Lemma strings_of_NoDup (l : list py_name) : NoDup l → NoDup (strings_of l).
Proof.
  induction 1 as [|x l Hx Hl IH]; [constructor |].
  destruct x as [s|]; [| exact IH].
  change (strings_of (Some s :: l)) with (s :: strings_of l).
  constructor; [| exact IH]. by rewrite strings_of_elem.
Qed.

Lemma sorted_strings_sorted l : StronglySorted String.le (sorted_strings l).
Proof. apply StronglySorted_merge_sort; apply _. Qed.

Lemma sorted_strings_elem s l : s ∈ sorted_strings l ↔ Some s ∈ l.
Proof.
  unfold sorted_strings.
  by rewrite merge_sort_Permutation, strings_of_elem, set_to_list_elem.
Qed.

Lemma sorted_strings_NoDup l : NoDup (sorted_strings l).
Proof.
  unfold sorted_strings. rewrite merge_sort_Permutation.
  apply strings_of_NoDup, set_to_list_NoDup.
Qed.


(** A sorted list of strings without duplicates and with the right
    members is the list [sorted_strings]. *)
Lemma sorted_strings_characterised l names :
  Sorted String.le names → NoDup names → (∀ s, s ∈ names ↔ Some s ∈ l) →
  names = sorted_strings l.
Proof.
  intros Hs Hn Hmem. apply (Sorted_unique String.le); [done | |].
  - apply Sorted_merge_sort; apply _.
  - apply NoDup_Permutation; [done | apply sorted_strings_NoDup |].
    intros s. by rewrite Hmem, sorted_strings_elem.
Qed.

(** Names that are all strings are sorted. *)
Lemma unique_sorted_strings l :
  None ∉ l → unique_sorted l = Ok (Some <$> sorted_strings l).
Proof.
  intros Hnone. unfold unique_sorted, py_sort.
  rewrite bool_decide_eq_false_2; [done |].
  by rewrite set_to_list_elem.
Qed.




(** Whatever order the set of strings is enumerated in, sorting gives
    one list. *)
Lemma sort_enumeration_irrelevant l enumeration :
  None ∉ l →
  enumeration ≡ₚ set_to_list l →
  py_sort enumeration = unique_sorted l.
Proof.
  intros Hnone Hperm. rewrite unique_sorted_strings by done.
  unfold py_sort. rewrite bool_decide_eq_false_2; cycle 1.
  { by rewrite Hperm, set_to_list_elem. }
  do 2 f_equal. apply (Sorted_unique String.le).
  - apply Sorted_merge_sort; apply _.
  - apply Sorted_merge_sort; apply _.
  - unfold sorted_strings, strings_of.
    by rewrite !merge_sort_Permutation, Hperm.
Qed.

Lemma resolve_names_of_list objects w :
  (let! names :=
     (if truthy_list objects then extract_names objects [] else ret []) in
   lift (unique_sorted names)) w
  = (unique_sorted (readable_names objects),
     with_events (skip_warnings objects) w).
Proof.
  unfold bind. destruct objects as [|v rest].
  - simpl. unfold ret, lift, with_events. simpl. rewrite app_nil_r.
    by destruct w.
  - unfold truthy_list. by rewrite extract_names_spec.
Qed.

Lemma resolve_names_response records w :
  resolve_names (VResponse (Some records)) w =
  (unique_sorted (readable_names records),
   with_events (skip_warnings records) w).
Proof.
  unfold resolve_names. unfold bind at 1. simpl. unfold ret at 1.
  apply resolve_names_of_list.
Qed.

Lemma resolve_names_tuple tag records others w :
  resolve_names (VTuple (tag :: ItemList records :: others)) w =
  (unique_sorted (readable_names records),
   with_events
     (St_info "Handled older ElevenLabs voices response tuple structure."
        :: skip_warnings records) w).
Proof.
  unfold resolve_names. unfold bind at 1. simpl. unfold_monad. simpl.
  pose proof (resolve_names_of_list records) as H. unfold_monad.
  rewrite H. unfold with_events. simpl. tidy_log. done.
Qed.

Lemma resolve_names_list records w :
  resolve_names (VList records) w =
  (unique_sorted (readable_names records),
   with_events
     (St_info "Handled ElevenLabs voices response as a direct list."
        :: skip_warnings records) w).
Proof.
  unfold resolve_names. unfold bind at 1. simpl. unfold_monad. simpl.
  pose proof (resolve_names_of_list records) as H. unfold_monad.
  rewrite H. unfold with_events. simpl. tidy_log. done.
Qed.



Example three_shapes_sample :
  fst (resolve_names (VResponse (Some sample_voices)) world_with_client)
  = Ok [Some "Aria"; Some "Rachel"]
  ∧ fst (resolve_names (VTuple [ItemOther "voices"; ItemList sample_voices])
           world_with_client)
    = Ok [Some "Aria"; Some "Rachel"]
  ∧ fst (resolve_names (VList sample_voices) world_with_client)
    = Ok [Some "Aria"; Some "Rachel"].
Proof. repeat split; vm_compute; reflexivity. Qed.



Example nameless_record_sample :
  resolve_names (VResponse (Some sample_voices)) world_with_client =
  (Ok [Some "Aria"; Some "Rachel"],
   with_events
     [St_warning "Item in voice list has unexpected structure (no .name): {'voice_id': 'x1'}. Skipping."]
     world_with_client).
Proof. vm_compute. reflexivity. Qed.

(** ** The listing call fails *)

Lemma voice_names_raises E w e :
  get_all_catalog E = Raise e →
  voice_names E w = (Raise e, with_events [Call_get_all] w).
Proof.
  intros H. unfold voice_names. unfold_monad. simpl. by rewrite H.
Qed.

(** C7: when the listing call of the voice options raises [e], the
    exception is caught; [st.error] reports it, the selected voice becomes
    "Rachel", and the voice options run on to the sliders and return
    normally. *)
Theorem listing_failure_selects_rachel E w e :
  is_Some (elevenlabs_client (vars w)) →
  get_all_catalog E = Raise e →
  ∃ w',
    voice_options E w = (Ok tt, w')
    ∧ selected_voice (vars w') = Some "Rachel"
    ∧ log w' =
      (log w ++
       [St_text "Using ElevenLabs for human-like voice.";
        Call_get_all;
        St_error ("Could not fetch or process ElevenLabs voices using client: "
                    ++ exn_str e)])%list
    ∧ voice_settings (vars w') =
      Some (tone_parameters (slider_stability E) (slider_clarity E))
    ∧ elevenlabs_client (vars w') = elevenlabs_client (vars w).
Proof.
  intros [c Hc] Hraise. unfold voice_options.
  eexists. split.
  - unfold bind at 1. unfold set_selected_voice at 1, assign at 1.
    unfold bind at 1. unfold set_voice_settings at 1, assign at 1.
    unfold bind at 1. unfold read at 1. simpl. rewrite Hc.
    unfold bind at 1. unfold emit at 1.
    unfold bind at 1. unfold try_except at 1.
    unfold bind at 1. rewrite (voice_names_raises _ _ e Hraise).
    unfold_monad. simpl. reflexivity.
  - simpl. tidy_log. done.
Qed.

(** The listing call answers 503 after a successful start-up. *)
Lemma listing_failure_selects_rachel_witness :
  ∃ w',
    voice_options env_catalog_fails world_with_client = (Ok tt, w')
    ∧ selected_voice (vars w') = Some "Rachel"
    ∧ log w' =
      [St_text "Using ElevenLabs for human-like voice.";
       Call_get_all;
       St_error "Could not fetch or process ElevenLabs voices using client: status_code: 503"]
    ∧ voice_settings (vars w') = Some (tone_parameters 0.3 0.9)
    ∧ elevenlabs_client (vars w') = Some (Client "sk-test").
Proof.
  apply (listing_failure_selects_rachel env_catalog_fails world_with_client
           (Exn "ApiError" "status_code: 503")).
  - simpl. eauto.
  - reflexivity.
Defined.

(** The whole run in that situation: the story is spoken by the primary
    backend with the voice "Rachel" and the player is shown. *)
Example listing_failure_run_continues :
  let r := script env_catalog_fails (Some []) "Tell a short story"
             (initial_world ∅) in
  fst r = Ok tt
  ∧ Call_generate
      (GenerateParams sample_story "Rachel" "eleven_multilingual_v2"
         (Some (mkVoiceSettings 0.3 0.9))) ∈ log (snd r)
  ∧ St_audio sample_audio ∈ log (snd r).
Proof.
  intros r.
  assert (log (snd r) =
          [Call_get_all;
           St_text "Using ElevenLabs for human-like voice.";
           Call_get_all;
           St_error "Could not fetch or process ElevenLabs voices using client: status_code: 503";
           St_subheader "📜 Generated Story:";
           St_write sample_story;
           Call_generate
             (GenerateParams sample_story "Rachel" "eleven_multilingual_v2"
                (Some (mkVoiceSettings 0.3 0.9)));
           St_subheader "🗣️ Listen to the Story:";
           St_audio sample_audio]) as Hlog by (vm_compute; reflexivity).
  split; [vm_compute; reflexivity |].
  rewrite Hlog. split; find_in_log.
Qed.

(** ** What runs before the button *)

Lemma speechless_no_speech evs :
  speechless evs →
  ¬ calls_primary evs ∧ ¬ calls_fallback evs ∧ ¬ shows_audio evs.
Proof.
  unfold speechless. rewrite Forall_forall. intros H.
  repeat split; intros [x Hx]; apply H in Hx; discriminate Hx.
Qed.

Lemma skip_warnings_speechless items : speechless (skip_warnings items).
Proof.
  unfold speechless, skip_warnings. apply Forall_forall. intros e He.
  apply list_elem_of_omap in He as (v & _ & Hv). unfold skip_warning in Hv.
  destruct (v_name v); simplify_eq; done.
Qed.

Ltac solve_speechless :=
  unfold speechless;
  repeat first
    [ done
    | apply Forall_nil_2
    | apply Forall_cons_2; [reflexivity |]
    | apply skip_warnings_speechless ].

Lemma resolve_names_events r w :
  ∃ outcome evs,
    resolve_names r w = (outcome, with_events evs w) ∧ speechless evs.
Proof.
  destruct r as [[l|] | items | l | t].
  - rewrite resolve_names_response. eexists _, _. split; [done |].
    solve_speechless.
  - eexists _, _. split; [reflexivity |]. solve_speechless.
  - destruct items as [|a [|[l|o] rest]].
    + eexists _, _. split; [reflexivity |]. solve_speechless.
    + eexists _, _. split; [reflexivity |]. solve_speechless.
    + rewrite resolve_names_tuple. eexists _, _. split; [done |].
      solve_speechless.
    + eexists _, _. split; [reflexivity |]. solve_speechless.
  - rewrite resolve_names_list. eexists _, _. split; [done |].
    solve_speechless.
  - eexists _, _. split; [reflexivity |]. solve_speechless.
Qed.

(** Start-up always returns normally; it logs no speech event and binds
    neither [audio_bytes] nor a file. *)
Lemma configure_elevenlabs_frame E w :
  ∃ w' evs,
    configure_elevenlabs E w = (Ok tt, w')
    ∧ log w' = (log w ++ evs)%list
    ∧ speechless evs
    ∧ audio_bytes (vars w') = audio_bytes (vars w)
    ∧ files w' = files w.
Proof.
  unfold configure_elevenlabs, set_client, set_configured.
  unfold_monad. simpl.
  case_oracles; eexists _, _; (split; [reflexivity |]); simpl; tidy_log;
    (split; [first [reflexivity | symmetry; apply app_nil_r] |]);
    repeat split; solve_speechless.
Qed.

(** So do the voice options, which also leave the client alone. *)
Lemma voice_options_frame E w :
  ∃ w' evs,
    voice_options E w = (Ok tt, w')
    ∧ log w' = (log w ++ evs)%list
    ∧ speechless evs
    ∧ audio_bytes (vars w') = audio_bytes (vars w)
    ∧ elevenlabs_client (vars w') = elevenlabs_client (vars w)
    ∧ files w' = files w.
Proof.
  unfold voice_options, voice_names, set_selected_voice, set_voice_settings.
  unfold bind at 1. unfold assign at 1.
  unfold bind at 1. unfold assign at 1.
  unfold bind at 1. unfold read at 1. simpl.
  destruct (elevenlabs_client (vars w)) as [c|] eqn:Hc; cycle 1.
  { unfold_monad. simpl. eexists _, _. split; [reflexivity |]. simpl.
    split; [reflexivity |]. repeat split; solve_speechless. }
  unfold bind at 1. unfold emit at 1.
  unfold bind at 1. unfold try_except at 1.
  unfold bind at 1. unfold bind at 1. unfold emit at 1.
  unfold bind at 1. unfold lift at 1.
  destruct (get_all_catalog E) as [r|e].
  - match goal with |- context [resolve_names r ?w0] =>
      destruct (resolve_names_events r w0) as (outcome & evs & -> & Hevs) end.
    unfold_monad. unfold with_events. simpl.
    destruct outcome as [names|e]; [destruct (truthy_list names) |]; simpl;
      eexists _, _; (split; [reflexivity |]); simpl; tidy_log;
      (split; [reflexivity |]); repeat split; try done;
      unfold speechless in *;
      repeat first [apply Forall_cons_2; [reflexivity |] | apply Forall_app_2
                   | done | apply Forall_nil_2].
  - unfold_monad. simpl.
    eexists _, _. split; [reflexivity |]. simpl. tidy_log.
    split; [reflexivity |]. repeat split; solve_speechless.
Qed.

(** The story, and the events of its generation, depend on the outside
    world only. *)
Lemma generate_story_frame E image prompt :
  ∃ story evs,
    speechless evs
    ∧ ∀ w, generate_story_from_image E image prompt w =
           (Ok story, with_events evs w).
Proof.
  unfold generate_story_from_image.
  destruct (gemini_api_configured E); simpl; cycle 1.
  { eexists _, []. split; [solve_speechless |]. intros w.
    unfold ret, with_events. rewrite app_nil_r. by destruct w. }
  unfold_monad. simpl.
  destruct (vision_generate E image _) as [[[|[|text parts] cands] repr]|e];
    simpl.
  - eexists _, [_]. split; [| intros w; reflexivity]. solve_speechless.
  - eexists _, [_]. split; [| intros w; reflexivity]. solve_speechless.
  - eexists _, []. split; [solve_speechless |]. intros w.
    unfold with_events. rewrite app_nil_r. by destruct w.
  - eexists _, [_]. split; [| intros w; reflexivity]. solve_speechless.
Qed.

(** Every failure string of [generate_story_from_image] is a sentinel. *)
Lemma generation_failures_are_sentinels (detail : string) :
  matches_sentinel "Story generation unavailable due to API configuration issues." = true
  ∧ matches_sentinel "Could not generate a story from the image. The response was empty or malformed." = true
  ∧ matches_sentinel ("An error occurred during story generation: " ++ detail) = true.
Proof. repeat split. Qed.

Lemma sentinel_is_not_narrative story :
  matches_sentinel story = true → is_narrative story = false.
Proof.
  unfold matches_sentinel, is_narrative. intros H.
  destruct (startswith story "An error occurred"),
    (startswith story "Story generation unavailable"),
    (startswith story "Could not generate"), (truthy_str story);
    simpl in *; congruence.
Qed.

(** With a sentinel and [audio_bytes] still unbound, lines 301-318 log
    nothing and end in [NameError] at line 314. *)
Lemma speak_story_sentinel E story w :
  matches_sentinel story = true →
  audio_bytes (vars w) = None →
  speak_story E story w =
  (Raise (Exn "NameError" "name 'audio_bytes' is not defined"), w).
Proof.
  intros Hs Ha. unfold speak_story, present_audio.
  rewrite (sentinel_is_not_narrative _ Hs).
  unfold_monad. simpl. by rewrite Ha.
Qed.

(** C3: in every run in which the generated narrative matches a sentinel
    prefix, the log of the whole run holds no call to the primary backend, no
    call to the fallback backend and no audio player. *)
Theorem sentinel_story_is_never_spoken E image prompt fs story :
  fst (generate_story_from_image E image prompt (initial_world fs)) = Ok story →
  matches_sentinel story = true →
  let w' := snd (script E (Some image) prompt (initial_world fs)) in
  ¬ calls_primary (log w') ∧ ¬ calls_fallback (log w') ∧ ¬ shows_audio (log w').
Proof.
  intros Hstory Hsent w'. apply speechless_no_speech. subst w'.
  unfold script, create_story_and_speech.
  destruct (configure_elevenlabs_frame E (initial_world fs))
    as (w1 & evs1 & Hrun1 & Hlog1 & Hq1 & Ha1 & _).
  destruct (voice_options_frame E w1)
    as (w2 & evs2 & Hrun2 & Hlog2 & Hq2 & Ha2 & _).
  destruct (generate_story_frame E image prompt)
    as (story' & evs3 & Hq3 & Hrun3).
  rewrite Hrun3 in Hstory. simpl in Hstory. injection Hstory as ->.
  unfold bind at 1. rewrite Hrun1.
  unfold bind at 1. rewrite Hrun2.
  unfold bind at 1. rewrite Hrun3.
  rewrite speak_story_sentinel; [| done |]; cycle 1.
  { simpl. by rewrite Ha2, Ha1. }
  simpl. rewrite Hlog2, Hlog1. simpl.
  unfold speechless in *. by repeat apply Forall_app_2.
Qed.

(** Gemini raises, so the narrative is the call-error sentinel. *)
Lemma sentinel_story_is_never_spoken_witness :
  let w' := snd (script env_gemini_fails (Some []) "Tell a short story"
                   (initial_world ∅)) in
  ¬ calls_primary (log w') ∧ ¬ calls_fallback (log w') ∧ ¬ shows_audio (log w').
Proof.
  apply (sentinel_story_is_never_spoken env_gemini_fails [] "Tell a short story"
           ∅ "An error occurred during story generation: 429 quota").
  - reflexivity.
  - reflexivity.
Defined.

(** Such a run ends at line 314 with [NameError]: nothing has bound
    [audio_bytes]. *)
Example sentinel_run_ends_in_NameError :
  let r := script env_gemini_fails (Some []) "Tell a short story"
             (initial_world ∅) in
  fst r = Raise (Exn "NameError" "name 'audio_bytes' is not defined")
  ∧ log (snd r) =
    [Call_get_all;
     St_text "Using ElevenLabs for human-like voice.";
     Call_get_all;
     St_warning "Item in voice list has unexpected structure (no .name): {'voice_id': 'x1'}. Skipping.";
     St_error "Gemini API Error: 429 quota"].
Proof. split; vm_compute; reflexivity. Qed.

(** ** Which backend is used *)

(** The flag [elevenlabs_configured] is sound: it is set only when the key
    is present, the client was built and the probe succeeded. *)
Lemma configured_flag_sound E w :
  elevenlabs_configured (vars (snd (configure_elevenlabs E w))) = true →
  ∃ key c v,
    secrets_get_key E = Ok key ∧ truthy_str key = true
    ∧ ElevenLabs_new E key = Ok c ∧ get_all_probe E = Ok v.
Proof.
  unfold configure_elevenlabs, set_client, set_configured.
  unfold_monad. simpl.
  destruct (secrets_get_key E) as [key|e]; simpl; [| discriminate].
  destruct (truthy_str key) eqn:Hk; simpl; [| discriminate].
  destruct (ElevenLabs_new E key) as [c|e] eqn:Hnew; simpl; [| discriminate].
  destruct (get_all_probe E) as [v|e]; simpl; [| discriminate].
  intros _. eauto 10.
Qed.

(** The client handle, however, is bound before the probe (line 43) and
    stays bound when the probe raises. *)
Lemma client_survives_failed_probe E w key c e :
  secrets_get_key E = Ok key → truthy_str key = true →
  ElevenLabs_new E key = Ok c → get_all_probe E = Raise e →
  elevenlabs_client (vars (snd (configure_elevenlabs E w))) = Some c
  ∧ elevenlabs_configured (vars (snd (configure_elevenlabs E w))) = false.
Proof.
  intros Hkey Ht Hnew Hprobe.
  unfold configure_elevenlabs, set_client, set_configured.
  unfold_monad. simpl. rewrite Hkey. simpl. rewrite Ht, Hnew. simpl.
  by rewrite Hprobe.
Qed.

(** Lines 305-312 look at the client handle and the voice, never at the
    flag: with both present the primary backend is called. *)
Lemma dispatch_speech_uses_client E story w c v :
  elevenlabs_client (vars w) = Some c →
  selected_voice (vars w) = Some v → truthy_str v = true →
  truthy_str story = true →
  ∃ rest,
    log (snd (dispatch_speech E story w)) =
    (log w ++ Call_generate
                (build_generate_params story v (voice_settings (vars w)))
              :: rest)%list.
Proof.
  intros Hc Hv Hvt Hs. unfold dispatch_speech.
  unfold bind at 1. unfold read at 1.
  unfold bind at 1. unfold read at 1.
  rewrite Hc, Hv. simpl. rewrite Hvt.
  try rewrite bool_decide_eq_true_2 by eauto. simpl.
  unfold bind at 1. unfold read at 1.
  unfold bind at 1.
  rewrite convert_elevenlabs_guard_passed by (rewrite ?Hc; eauto).
  destruct (elevenlabs_try_body_log E story v (voice_settings (vars w)) w)
    as [rest Hlog].
  unfold try_except.
  destruct (elevenlabs_try_body E story v _ w) as [[r|e] w1]; simpl in *.
  - exists rest. unfold set_audio_bytes, assign. simpl. done.
  - eexists. unfold_monad. unfold set_audio_bytes, assign. simpl.
    rewrite Hlog. tidy_log. done.
Qed.

(** C1 fails in the run where the key is present, the client is built
    and the start-up probe is refused: the flag says unconfigured and the
    diagnostic is shown, yet the story is sent to the primary backend and the
    fallback is never called. *)
Theorem failed_probe_still_dispatches_to_primary :
  let w1 := snd (configure_elevenlabs env_probe_fails (initial_world ∅)) in
  let r := script env_probe_fails (Some []) "Tell a short story"
             (initial_world ∅) in
  elevenlabs_configured (vars w1) = false
  ∧ log w1 =
    [Call_get_all;
     St_error "🚨 ElevenLabs client initialization or test voice fetch failed: status_code: 401"]
  ∧ Call_generate
      (GenerateParams sample_story "Rachel" "eleven_multilingual_v2"
         (Some (mkVoiceSettings 0.5 0.75))) ∈ log (snd r)
  ∧ calls_primary (log (snd r))
  ∧ ¬ calls_fallback (log (snd r)).
Proof.
  intros w1 r.
  assert (log (snd r) =
          [Call_get_all;
           St_error "🚨 ElevenLabs client initialization or test voice fetch failed: status_code: 401";
           St_text "Using ElevenLabs for human-like voice.";
           Call_get_all;
           St_error "Could not fetch or process ElevenLabs voices using client: status_code: 401";
           St_subheader "📜 Generated Story:";
           St_write sample_story;
           Call_generate
             (GenerateParams sample_story "Rachel" "eleven_multilingual_v2"
                (Some (mkVoiceSettings 0.5 0.75)));
           St_subheader "🗣️ Listen to the Story:";
           St_audio sample_audio]) as Hlog by (vm_compute; reflexivity).
  split; [reflexivity |].
  split; [vm_compute; reflexivity |].
  rewrite Hlog.
  split; [find_in_log |].
  split; [eexists; find_in_log |].
  intros [t Ht]. apply list_elem_of_In in Ht. simpl in Ht.
  repeat (destruct Ht as [Ht | Ht]; [discriminate Ht |]). exact Ht.
Qed.

(** * Further properties of the script *)

(** ** Start-up *)

(** X1: after start-up the flag [elevenlabs_configured] is set exactly
    when the key is present and not empty, the client could be built and the
    probing listing call returned. *)
Theorem startup_flag_characterised E w :
  elevenlabs_configured (vars (snd (configure_elevenlabs E w))) = true
  ↔ ∃ key c v,
      secrets_get_key E = Ok key ∧ truthy_str key = true
      ∧ ElevenLabs_new E key = Ok c ∧ get_all_probe E = Ok v.
Proof.
  unfold configure_elevenlabs, set_client, set_configured.
  unfold_monad. simpl. split.
  - destruct (secrets_get_key E) as [key|e]; simpl; [| discriminate].
    destruct (truthy_str key) eqn:Hk; simpl; [| discriminate].
    destruct (ElevenLabs_new E key) as [c|e] eqn:Hnew; simpl; [| discriminate].
    destruct (get_all_probe E) as [v|e]; simpl; [| discriminate].
    intros _. eauto 10.
  - intros (key & c & v & -> & Hk & Hnew & ->). simpl.
    rewrite Hk, Hnew. reflexivity.
Qed.

(** X2: the client handle, in contrast, is bound exactly when the key is
    present and not empty and the constructor returned; the outcome of the
    probe plays no part. *)
Theorem startup_client_characterised E w c :
  elevenlabs_client (vars (snd (configure_elevenlabs E w))) = Some c
  ↔ ∃ key,
      secrets_get_key E = Ok key ∧ truthy_str key = true
      ∧ ElevenLabs_new E key = Ok c.
Proof.
  unfold configure_elevenlabs, set_client, set_configured.
  unfold_monad. simpl. split.
  - destruct (secrets_get_key E) as [key|e]; simpl; [| discriminate].
    destruct (truthy_str key) eqn:Hk; simpl; [| discriminate].
    destruct (ElevenLabs_new E key) as [c'|e] eqn:Hnew; simpl; [| discriminate].
    destruct (get_all_probe E) as [v|e]; simpl; intros [= ->]; eauto.
  - intros (key & -> & Hk & Hnew). simpl. rewrite Hk, Hnew. simpl.
    by destruct (get_all_probe E).
Qed.

(** An event is not in an explicit log. *)
Ltac not_in_log H :=
  apply list_elem_of_In in H; simpl in H; intuition discriminate.

(** X3: start-up always returns normally and touches no file.  It shows
    an error exactly when something raised, and it calls the listing
    operation exactly when a client was built. *)
Theorem startup_reports_failures E w :
  ∃ w' evs,
    configure_elevenlabs E w = (Ok tt, w')
    ∧ files w' = files w
    ∧ log w' = (log w ++ evs)%list
    ∧ ((∃ msg, St_error msg ∈ evs) ↔ startup_failure E)
    ∧ (Call_get_all ∈ evs ↔
       ∃ key c, secrets_get_key E = Ok key ∧ truthy_str key = true
                ∧ ElevenLabs_new E key = Ok c).
Proof.
  unfold configure_elevenlabs, set_client, set_configured, startup_failure.
  unfold_monad. simpl.
  destruct (secrets_get_key E) as [key|e] eqn:Hkey; simpl.
  - destruct (truthy_str key) eqn:Hk; simpl.
    + destruct (ElevenLabs_new E key) as [c|e] eqn:Hnew; simpl.
      * destruct (get_all_probe E) as [v|e] eqn:Hprobe; simpl.
        -- eexists _, [_]. repeat split; try reflexivity.
           ++ intros [msg H]. not_in_log H.
           ++ intros [[e H] | (k & [= <-] & _ & [[e H] | (c' & e & _ & H)])];
                congruence.
           ++ intros _. eauto.
           ++ intros _. find_in_log.
        -- eexists _, [_; _]. tidy_log. repeat split; try reflexivity.
           ++ intros _. right. exists key. eauto 10.
           ++ intros _. eexists. find_in_log.
           ++ intros _. eauto.
           ++ intros _. find_in_log.
      * eexists _, [_]. repeat split; try reflexivity.
        -- intros _. right. exists key. eauto 10.
        -- intros _. eexists. find_in_log.
        -- intros H. not_in_log H.
        -- intros (k & c & [= <-] & _ & H). congruence.
    + eexists _, []. rewrite app_nil_r. repeat split; try reflexivity.
      * intros [msg H]. not_in_log H.
      * intros [[e H] | (k & [= <-] & H & _)]; congruence.
      * intros H. not_in_log H.
      * intros (k & c & [= <-] & H & _). congruence.
  - eexists _, [_]. repeat split; try reflexivity.
    + intros _. eauto.
    + intros _. eexists. find_in_log.
    + intros H. not_in_log H.
    + intros (k & c & H & _). congruence.
Qed.

(** ** The catalogue and the selected voice *)

Lemma unique_sorted_nil : unique_sorted [] = Ok [].
Proof. reflexivity. Qed.

(** A list returned without [None] in it is the sorted list of strings. *)
Lemma unique_sorted_Ok_strings l names :
  unique_sorted l = Ok names → None ∉ names →
  names = Some <$> sorted_strings l.
Proof.
  unfold unique_sorted, py_sort, sorted_strings.
  destruct (bool_decide (None ∈ set_to_list l)) eqn:Hdec.
  - apply bool_decide_eq_true in Hdec.
    destruct (set_to_list l) as [|a [|b rest]]; intros [= <-] Hnone; done.
  - by intros [= <-] _.
Qed.

(** A result of unknown shape gives no names and one warning. *)
Lemma resolve_names_unknown_shape r w :
  shape_records r = None →
  resolve_names r w =
  (Ok [],
   with_events
     [St_warning ("Unexpected structure from elevenlabs_client.voices.get_all(): "
                    ++ type_repr r ++ ". Cannot list voices.")] w).
Proof.
  intros Hshape.
  destruct r as [[l|] | [|a [|[l|o] rest]] | l | t]; try discriminate Hshape;
    reflexivity.
Qed.

(** Whatever the shape, the resolver ends as [catalogue_names] says and
    logs no speech event. *)
Lemma resolve_names_catalogue r w :
  ∃ evs,
    resolve_names r w = (catalogue_names r, with_events evs w)
    ∧ speechless evs.
Proof.
  unfold catalogue_names.
  destruct (shape_records r) as [l|] eqn:Hshape.
  - destruct r as [[l'|] | [|a [|[l'|o] rest]] | l' | t];
      try discriminate Hshape; injection Hshape as ->; simpl.
    + rewrite resolve_names_response. eexists. split; [done |].
      solve_speechless.
    + rewrite resolve_names_tuple. eexists. split; [done |].
      solve_speechless.
    + rewrite resolve_names_list. eexists. split; [done |].
      solve_speechless.
  - rewrite resolve_names_unknown_shape by done. eexists. split; [done |].
    solve_speechless.
Qed.

Lemma selectbox_elem options picked :
  options ≠ [] → selectbox options picked ∈ options.
Proof.
  intros Hne. unfold selectbox.
  destruct (options !! picked) as [o|] eqn:Hp.
  - by eapply list_elem_of_lookup_2.
  - destruct options; [done | left].
Qed.

(** The voice options with a client and an answering listing call, run
    up to the end of the [try] statement. *)
Lemma voice_options_with_catalogue E w c r :
  elevenlabs_client (vars w) = Some c →
  get_all_catalog E = Ok r →
  ∃ w' evs,
    voice_options E w = (Ok tt, w')
    ∧ log w' = (log w ++ St_text "Using ElevenLabs for human-like voice."
                  :: Call_get_all :: evs)%list
    ∧ speechless evs
    ∧ selected_voice (vars w') = voice_choice E r
    ∧ (catalogue_names r = Ok [] →
       St_warning "No usable ElevenLabs voices found via API or extraction failed. Using default 'Rachel' (may fail if not available)." ∈ evs)
    ∧ (∀ e, catalogue_names r = Raise e →
       St_error ("Could not fetch or process ElevenLabs voices using client: "
                   ++ exn_str e) ∈ evs).
Proof.
  intros Hc Hcat.
  unfold voice_options, voice_names, set_selected_voice, set_voice_settings.
  unfold bind at 1. unfold assign at 1.
  unfold bind at 1. unfold assign at 1.
  unfold bind at 1. unfold read at 1. simpl. rewrite Hc.
  unfold bind at 1. unfold emit at 1.
  unfold bind at 1. unfold try_except at 1.
  unfold bind at 1. unfold bind at 1. unfold emit at 1.
  unfold bind at 1. unfold lift at 1. rewrite Hcat.
  match goal with |- context [resolve_names r ?w0] =>
    destruct (resolve_names_catalogue r w0) as (evs & -> & Hevs) end.
  unfold_monad. unfold with_events, voice_choice. simpl.
  destruct (catalogue_names r) as [[|n names]|e] eqn:Hnames; simpl.
  - eexists _, _. split; [reflexivity |]. simpl. tidy_log.
    split; [reflexivity |]. split; [| split; [done | split]].
    + unfold speechless in *. apply Forall_app_2; [done |].
      by apply Forall_cons_2.
    + intros _. apply elem_of_app. right. left.
    + intros e [=].
  - eexists _, evs. split; [reflexivity |]. simpl. tidy_log.
    repeat split; done.
  - eexists _, _. split; [reflexivity |]. simpl. tidy_log.
    split; [reflexivity |]. split; [| split; [done | split]].
    + unfold speechless in *. apply Forall_app_2; [done |].
      by apply Forall_cons_2.
    + intros [=].
    + intros e' [= <-]. apply elem_of_app. right. left.
Qed.

(** X4: a listing result of a shape the script does not know (no
    [GetVoicesResponse] with a list, no tuple with a list in second place, no
    list) is no error: two warnings are shown, the voice becomes "Rachel" and
    the voice options end normally. *)
Theorem unknown_shape_selects_rachel E w c r :
  elevenlabs_client (vars w) = Some c →
  get_all_catalog E = Ok r →
  shape_records r = None →
  ∃ w',
    voice_options E w = (Ok tt, w')
    ∧ selected_voice (vars w') = Some "Rachel"
    ∧ log w' =
      (log w ++
       [St_text "Using ElevenLabs for human-like voice.";
        Call_get_all;
        St_warning ("Unexpected structure from elevenlabs_client.voices.get_all(): "
                      ++ type_repr r ++ ". Cannot list voices.");
        St_warning "No usable ElevenLabs voices found via API or extraction failed. Using default 'Rachel' (may fail if not available)."])%list.
Proof.
  intros Hc Hcat Hshape.
  unfold voice_options, voice_names, set_selected_voice, set_voice_settings.
  unfold bind at 1. unfold assign at 1.
  unfold bind at 1. unfold assign at 1.
  unfold bind at 1. unfold read at 1. simpl. rewrite Hc.
  unfold bind at 1. unfold emit at 1.
  unfold bind at 1. unfold try_except at 1.
  unfold bind at 1. unfold bind at 1. unfold emit at 1.
  unfold bind at 1. unfold lift at 1. rewrite Hcat.
  rewrite resolve_names_unknown_shape by done.
  unfold_monad. unfold with_events. simpl.
  eexists. split; [reflexivity |]. simpl. tidy_log. done.
Qed.

Lemma unknown_shape_selects_rachel_witness :
  ∃ w',
    voice_options env_odd_catalog world_with_client = (Ok tt, w')
    ∧ selected_voice (vars w') = Some "Rachel"
    ∧ log w' =
      [St_text "Using ElevenLabs for human-like voice.";
       Call_get_all;
       St_warning "Unexpected structure from elevenlabs_client.voices.get_all(): <class 'dict'>. Cannot list voices.";
       St_warning "No usable ElevenLabs voices found via API or extraction failed. Using default 'Rachel' (may fail if not available)."].
Proof.
  apply (unknown_shape_selects_rachel env_odd_catalog world_with_client
           (Client "sk-test") (VOther "<class 'dict'>")).
  - reflexivity.
  - reflexivity.
  - reflexivity.
Defined.

(** X5: with a client and an answering listing call, the voice options
    end in one of three ways.  The catalogue offers names, and the value
    selected is one of them (it is [None] only when [None] is offered).  Or
    the catalogue offers none, and the voice is "Rachel" with the warning that
    no usable voice was found.  Or sorting the names raised, and the voice is
    "Rachel" with that error shown. *)
Theorem selected_voice_is_offered_or_rachel E w c r :
  elevenlabs_client (vars w) = Some c →
  get_all_catalog E = Ok r →
  (∃ names,
     catalogue_names r = Ok names ∧ names ≠ []
     ∧ selected_voice (vars (snd (voice_options E w))) ∈ names)
  ∨ (catalogue_names r = Ok []
     ∧ selected_voice (vars (snd (voice_options E w))) = Some "Rachel"
     ∧ St_warning "No usable ElevenLabs voices found via API or extraction failed. Using default 'Rachel' (may fail if not available)."
         ∈ log (snd (voice_options E w)))
  ∨ (∃ e,
       catalogue_names r = Raise e
       ∧ selected_voice (vars (snd (voice_options E w))) = Some "Rachel"
       ∧ St_error ("Could not fetch or process ElevenLabs voices using client: "
                     ++ exn_str e) ∈ log (snd (voice_options E w))).
Proof.
  intros Hc Hcat.
  destruct (voice_options_with_catalogue E w c r Hc Hcat)
    as (w' & evs & -> & Hlog & _ & Hsel & Hwarn & Herr). simpl.
  unfold voice_choice in Hsel.
  destruct (catalogue_names r) as [[|n names]|e] eqn:Hnames.
  - right. left. repeat split; try done. rewrite Hlog.
    apply elem_of_app. right. do 2 right. by apply Hwarn.
  - left. exists (n :: names). split; [done |]. split; [done |].
    rewrite Hsel. by apply selectbox_elem.
  - right. right. exists e. repeat split; try done. rewrite Hlog.
    apply elem_of_app. right. do 2 right. by apply Herr.
Qed.

Lemma selected_voice_is_offered_or_rachel_witness :
  (∃ names,
     catalogue_names (VResponse (Some voices_with_None)) = Ok names
     ∧ names ≠ []
     ∧ selected_voice
         (vars (snd (voice_options env_None_name world_with_client))) ∈ names)
  ∨ (catalogue_names (VResponse (Some voices_with_None)) = Ok []
     ∧ selected_voice
         (vars (snd (voice_options env_None_name world_with_client)))
       = Some "Rachel"
     ∧ St_warning "No usable ElevenLabs voices found via API or extraction failed. Using default 'Rachel' (may fail if not available)."
         ∈ log (snd (voice_options env_None_name world_with_client)))
  ∨ (∃ e,
       catalogue_names (VResponse (Some voices_with_None)) = Raise e
       ∧ selected_voice
           (vars (snd (voice_options env_None_name world_with_client)))
         = Some "Rachel"
       ∧ St_error ("Could not fetch or process ElevenLabs voices using client: "
                     ++ exn_str e)
           ∈ log (snd (voice_options env_None_name world_with_client))).
Proof.
  apply (selected_voice_is_offered_or_rachel env_None_name world_with_client
           (Client "sk-test")).
  - reflexivity.
  - reflexivity.
Defined.

(** A listing with a [None] name beside a string name: the sort raises,
    the error is shown and the voice is "Rachel". *)
Example None_name_selects_rachel :
  selected_voice (vars (snd (voice_options env_None_name world_with_client)))
  = Some "Rachel"
  ∧ log (snd (voice_options env_None_name world_with_client)) =
    [St_text "Using ElevenLabs for human-like voice.";
     Call_get_all;
     St_warning "Item in voice list has unexpected structure (no .name): {'voice_id': 'x1'}. Skipping.";
     St_error "Could not fetch or process ElevenLabs voices using client: '<' not supported between instances of 'NoneType' and 'str'"].
Proof. split; vm_compute; reflexivity. Qed.

(** X6: when the catalogue offers names that are all strings and the
    user leaves the select box at its first entry, the voice used is the least
    of these names in lexicographic order. *)
Theorem default_voice_is_least_name E w c r names :
  elevenlabs_client (vars w) = Some c →
  get_all_catalog E = Ok r →
  selectbox_index E = 0 →
  catalogue_names r = Ok names →
  names ≠ [] →
  None ∉ names →
  ∃ v,
    selected_voice (vars (snd (voice_options E w))) = Some v
    ∧ Some v ∈ names
    ∧ ∀ n, Some n ∈ names → String.le v n.
Proof.
  intros Hc Hcat Hidx Hnames Hne Hnone.
  destruct (voice_options_with_catalogue E w c r Hc Hcat)
    as (w' & evs & -> & _ & _ & Hsel & _). simpl.
  unfold voice_choice in Hsel. rewrite Hnames, Hidx in Hsel.
  pose proof (unique_sorted_Ok_strings _ _ Hnames Hnone) as Hstr.
  pose proof (sorted_strings_sorted
                (readable_names (default [] (shape_records r)))) as Hsorted.
  destruct (sorted_strings (readable_names (default [] (shape_records r))))
    as [|first strs]; simpl in Hstr; subst names; [done |].
  exists first. split; [exact Hsel |]. split; [left |].
  intros n Hn. apply StronglySorted_inv in Hsorted as [_ Hall].
  apply elem_of_cons in Hn as [[= ->] | Hn]; [reflexivity |].
  apply list_elem_of_fmap in Hn as (n' & [= <-] & Hn').
  by eapply Forall_forall in Hall.
Qed.

Lemma default_voice_is_least_name_witness :
  ∃ v,
    selected_voice (vars (snd (voice_options env_all_good world_with_client)))
    = Some v
    ∧ Some v ∈ [Some "Aria"; Some "Rachel"]
    ∧ ∀ n, Some n ∈ [Some "Aria"; Some "Rachel"] → String.le v n.
Proof.
  apply (default_voice_is_least_name env_all_good world_with_client
           (Client "sk-test") (VResponse (Some sample_voices))).
  - reflexivity.
  - reflexivity.
  - reflexivity.
  - vm_compute. reflexivity.
  - discriminate.
  - intros H. apply list_elem_of_In in H. simpl in H.
    intuition discriminate.
Defined.



(** ** The primary path in full *)


Ltac solve_ui_messages :=
  unfold ui_messages;
  repeat first
    [ done
    | apply Forall_nil_2
    | apply Forall_cons_2; [reflexivity |]
    | apply Forall_app_2 ].

(** X8: the primary helper returns audio exactly when there is text and a
    client, [generate] returns a stream that can be read to its end, and the
    temporary file can be created, written and removed; the audio is then the
    chunks of the stream joined in order. *)
Theorem primary_success_characterised E text voice vs w audio :
  fst (convert_text_to_speech_elevenlabs E text voice vs w) = Ok (Some audio)
  ↔ truthy_str text = true
    ∧ is_Some (elevenlabs_client (vars w))
    ∧ ∃ chunks p,
        generate E (build_generate_params text voice vs)
          = Ok (Stream chunks None)
        ∧ audio = concat chunks
        ∧ tmp_name E = Ok p ∧ files w !! p = None
        ∧ tmp_write E = None ∧ unlink_fails E = None.
Proof.
  split.
  - intros Hrun.
    destruct (truthy_str text) eqn:Ht; cycle 1.
    { rewrite convert_elevenlabs_guard_failed in Hrun by auto. discriminate. }
    destruct (elevenlabs_client (vars w)) as [cl|] eqn:Hc; cycle 1.
    { rewrite convert_elevenlabs_guard_failed in Hrun by auto. discriminate. }
    rewrite convert_elevenlabs_guard_passed in Hrun by (rewrite ?Hc; eauto).
    split; [done |]. split; [eauto |].
    revert Hrun.
    unfold try_except, elevenlabs_try_body, stage_in_temp_file, unlink.
    unfold_monad. simpl.
    destruct (generate E _) as [[|chunks [e|]]|e]; simpl; try discriminate.
    destruct (tmp_name E) as [p|e]; simpl; try discriminate.
    destruct (files w !! p) eqn:Hp; simpl; try discriminate.
    destruct (tmp_write E); simpl; try discriminate.
    destruct (unlink_fails E); simpl; try discriminate.
    intros [= <-]. eauto 10.
  - intros (Ht & Hc & chunks & p & Hgen & -> & Hname & Hp & Hwrite & Hunlink).
    rewrite convert_elevenlabs_guard_passed by done.
    unfold try_except, elevenlabs_try_body, stage_in_temp_file, unlink.
    unfold_monad. simpl.
    rewrite Hgen. simpl. rewrite Hname. simpl. rewrite Hp, Hwrite, Hunlink.
    reflexivity.
Qed.

(** The files are untouched when every service answers. *)
Lemma files_restored_when_staging_works_witness :
  files (snd (convert_text_to_speech_elevenlabs env_all_good sample_story
                "Aria" None world_with_client))
  = files world_with_client.
Proof.
  apply (files_restored_when_staging_works env_all_good sample_story "Aria"
           None world_with_client).
  - reflexivity.
  - reflexivity.
Defined.

(** X10: when the stream was read but writing or removing the temporary
    file raises, the audio already received is given up: the helper shows the
    error and returns [None], and the temporary file is still there. *)
Theorem staging_failure_discards_audio E text voice vs w chunks p e :
  truthy_str text = true →
  is_Some (elevenlabs_client (vars w)) →
  generate E (build_generate_params text voice vs) = Ok (Stream chunks None) →
  tmp_name E = Ok p →
  files w !! p = None →
  tmp_write E = Some e ∨ (tmp_write E = None ∧ unlink_fails E = Some e) →
  ∃ w',
    convert_text_to_speech_elevenlabs E text voice vs w = (Ok None, w')
    ∧ is_Some (files w' !! p)
    ∧ log w' =
      (log w ++
       [Call_generate (build_generate_params text voice vs);
        St_error ("An error occurred during ElevenLabs speech conversion: "
                    ++ exn_str e)])%list.
Proof.
  intros Ht Hc Hgen Hname Hp Hfail.
  rewrite convert_elevenlabs_guard_passed by done.
  unfold try_except, elevenlabs_try_body, stage_in_temp_file, unlink.
  unfold_monad. simpl.
  rewrite Hgen. simpl. rewrite Hname. simpl. rewrite Hp.
  destruct Hfail as [-> | [-> ->]]; simpl.
  - eexists. split; [reflexivity |]. simpl. split.
    + rewrite lookup_insert_eq. eauto.
    + tidy_log. done.
  - eexists. split; [reflexivity |]. simpl. split.
    + rewrite lookup_insert_eq. eauto.
    + tidy_log. done.
Qed.

Lemma staging_failure_discards_audio_witness :
  ∃ w',
    convert_text_to_speech_elevenlabs env_unlink_fails sample_story "Aria"
      None world_with_client = (Ok None, w')
    ∧ is_Some (files w' !! "/tmp/tmpk3x9.mp3")
    ∧ log w' =
      [Call_generate (build_generate_params sample_story "Aria" None);
       St_error "An error occurred during ElevenLabs speech conversion: [Errno 13] Permission denied"].
Proof.
  apply (staging_failure_discards_audio env_unlink_fails sample_story "Aria"
           None world_with_client
           [[Byte.x49]; [Byte.x44; Byte.x33]] "/tmp/tmpk3x9.mp3"
           (Exn "PermissionError" "[Errno 13] Permission denied")).
  - reflexivity.
  - simpl. eauto.
  - reflexivity.
  - reflexivity.
  - reflexivity.
  - right. split; reflexivity.
Defined.

(** ** The fallback path in full *)

(** X11: the fallback helper assigns no variable, touches no file and
    never calls the primary backend; it returns audio exactly when there is
    text and the engine produced it, and the audio is the engine's buffer. *)
Theorem gtts_leaves_world_alone E text w :
  vars (snd (convert_text_to_speech_gtts E text w)) = vars w
  ∧ files (snd (convert_text_to_speech_gtts E text w)) = files w
  ∧ (∃ evs,
       log (snd (convert_text_to_speech_gtts E text w)) = (log w ++ evs)%list
       ∧ ¬ calls_primary evs)
  ∧ (∀ b,
       fst (convert_text_to_speech_gtts E text w) = Ok (Some b)
       ↔ truthy_str text = true ∧ gtts_synth E text = Ok b).
Proof.
  unfold convert_text_to_speech_gtts, gtts_try_body.
  destruct (truthy_str text) eqn:Ht; simpl.
  - unfold_monad. simpl.
    destruct (gtts_synth E text) as [b'|e]; simpl.
    + split; [done |]. split; [done |]. split.
      * eexists. split; [reflexivity |]. intros [x Hx]. not_in_log Hx.
      * intros b. split; [by intros [= ->] | by intros [_ [= ->]]].
    + split; [done |]. split; [done |]. split.
      * eexists. tidy_log. split; [reflexivity |].
        intros [x Hx]. not_in_log Hx.
      * intros b. split; [discriminate | intros [_ H]; discriminate H].
  - unfold ret. simpl. split; [done |]. split; [done |]. split.
    + exists []. rewrite app_nil_r. split; [done |].
      intros [x Hx]. not_in_log Hx.
    + intros b. split; [discriminate | intros [H _]; discriminate H].
Qed.

(** ** Dispatch *)

(** The events of the primary helper once its guard is passed. *)
Lemma convert_elevenlabs_trace E text voice vs w :
  truthy_str text = true →
  is_Some (elevenlabs_client (vars w)) →
  ∃ r w' rest,
    convert_text_to_speech_elevenlabs E text voice vs w = (Ok r, w')
    ∧ vars w' = vars w
    ∧ log w' =
      (log w ++ Call_generate (build_generate_params text voice vs) :: rest)%list
    ∧ ui_messages rest.
Proof.
  intros Ht Hc. rewrite convert_elevenlabs_guard_passed by done.
  unfold try_except, elevenlabs_try_body, stage_in_temp_file, unlink.
  unfold_monad. simpl.
  case_oracles; eexists _, _, _; (split; [reflexivity |]); simpl; tidy_log;
    (split; [reflexivity |]); (split; [reflexivity |]); solve_ui_messages.
Qed.

Lemma convert_gtts_trace E text w :
  truthy_str text = true →
  ∃ r rest,
    convert_text_to_speech_gtts E text w =
    (Ok r, with_events (Call_gtts text :: rest) w)
    ∧ ui_messages rest.
Proof.
  intros Ht. unfold convert_text_to_speech_gtts, gtts_try_body. rewrite Ht.
  unfold_monad. unfold with_events. simpl.
  destruct (gtts_synth E text); simpl; eexists _, _; tidy_log;
    (split; [reflexivity |]); solve_ui_messages.
Qed.

(** The events of lines 305-312. *)
Lemma dispatch_speech_trace E story w :
  truthy_str story = true →
  ∃ w' rest,
    dispatch_speech E story w = (Ok tt, w')
    ∧ log w' =
      (log w ++
       (match elevenlabs_client (vars w), selected_voice (vars w) with
        | Some _, Some (String a v) =>
            Call_generate
              (build_generate_params story (String a v) (voice_settings (vars w)))
        | _, _ => Call_gtts story
        end) :: rest)%list
    ∧ ui_messages rest
    ∧ is_Some (audio_bytes (vars w')).
Proof.
  intros Hs. unfold dispatch_speech.
  unfold bind at 1. unfold read at 1.
  unfold bind at 1. unfold read at 1.
  destruct (elevenlabs_client (vars w)) as [c|] eqn:Hc;
    [destruct (selected_voice (vars w)) as [[|a v]|] eqn:Hv |]; simpl.
  2: {
    unfold bind at 1. unfold read at 1. unfold bind at 1.
    destruct (convert_elevenlabs_trace E story (String a v)
                (voice_settings (vars w)) w Hs)
      as (r & w1 & rest & -> & Hvars & Hlog & Hrest);
      [rewrite Hc; eauto |].
    unfold set_audio_bytes, assign. simpl.
    eexists _, rest. split; [reflexivity |]. simpl. eauto. }
  all: unfold bind at 1;
    destruct (convert_gtts_trace E story w Hs) as (r & rest & -> & Hrest);
    unfold set_audio_bytes, assign, with_events; simpl;
    eexists _, rest; (split; [reflexivity |]); simpl; eauto.
Qed.

(** X12: for a story that is not empty, lines 305-312 call exactly one
    synthesis backend: the primary one when a client exists and a non-empty
    voice is selected, the fallback otherwise; they return normally and leave
    [audio_bytes] bound. *)
Theorem dispatch_calls_exactly_one_backend E story w :
  truthy_str story = true →
  ∃ w' rest,
    dispatch_speech E story w = (Ok tt, w')
    ∧ log w' =
      (log w ++
       (match elevenlabs_client (vars w), selected_voice (vars w) with
        | Some _, Some (String a v) =>
            Call_generate
              (build_generate_params story (String a v) (voice_settings (vars w)))
        | _, _ => Call_gtts story
        end) :: rest)%list
    ∧ ui_messages rest
    ∧ is_Some (audio_bytes (vars w')).
Proof. apply dispatch_speech_trace. Qed.

Lemma dispatch_calls_exactly_one_backend_witness :
  ∃ w' rest,
    dispatch_speech env_all_good sample_story world_with_client = (Ok tt, w')
    ∧ log w' =
      (Call_generate
         (build_generate_params sample_story "Aria"
            (Some (tone_parameters 0.3 0.9))) :: rest)
    ∧ ui_messages rest
    ∧ is_Some (audio_bytes (vars w')).
Proof.
  apply (dispatch_calls_exactly_one_backend env_all_good sample_story
           world_with_client).
  reflexivity.
Defined.

(** ** The story and what is done with it *)

Lemma is_narrative_truthy story :
  is_narrative story = true → truthy_str story = true.
Proof.
  unfold is_narrative. destruct (truthy_str story); [done | discriminate].
Qed.

(** The events of [generate_story_from_image] are page messages. *)
Lemma generate_story_messages E image prompt :
  ∃ story evs,
    ui_messages evs
    ∧ ∀ w, generate_story_from_image E image prompt w =
           (Ok story, with_events evs w).
Proof.
  unfold generate_story_from_image.
  destruct (gemini_api_configured E); simpl; cycle 1.
  { eexists _, []. split; [solve_ui_messages |]. intros w.
    unfold ret, with_events. rewrite app_nil_r. by destruct w. }
  unfold_monad. simpl.
  destruct (vision_generate E image _) as [[[|[|text parts] cands] repr]|e];
    simpl.
  - eexists _, [_]. split; [| intros w; reflexivity]. solve_ui_messages.
  - eexists _, [_]. split; [| intros w; reflexivity]. solve_ui_messages.
  - eexists _, []. split; [solve_ui_messages |]. intros w.
    unfold with_events. rewrite app_nil_r. by destruct w.
  - eexists _, [_]. split; [| intros w; reflexivity]. solve_ui_messages.
Qed.

(** X14: story generation never raises and changes neither variables nor
    files.  What it returns is the text of the first part of the first
    candidate of Gemini's answer, or else a string that line 301 recognises as
    a failure. *)
Theorem story_is_model_text_or_sentinel E image prompt w :
  ∃ story w',
    generate_story_from_image E image prompt w = (Ok story, w')
    ∧ vars w' = vars w ∧ files w' = files w
    ∧ (matches_sentinel story = true
       ∨ (gemini_api_configured E = true
          ∧ ∃ response parts others,
              vision_generate E image (newline ++ newline ++ prompt)
                = Ok response
              ∧ candidates response = (story :: parts) :: others)).
Proof.
  unfold generate_story_from_image.
  destruct (gemini_api_configured E); simpl; cycle 1.
  { eexists _, _. split; [reflexivity |]. repeat split. by left. }
  unfold_monad. simpl.
  destruct (vision_generate E image _)
    as [[[|[|text parts] cands] repr]|e] eqn:Hgen; simpl;
    eexists _, _; (split; [reflexivity |]); simpl;
    (split; [reflexivity |]); (split; [reflexivity |]).
  - by left.
  - by left.
  - right. split; [done |]. eauto.
  - by left.
Qed.

Lemma present_audio_bound a w :
  audio_bytes (vars w) = Some a →
  present_audio w = (Ok tt, with_events (audio_outcome a) w).
Proof.
  intros Ha. unfold present_audio. unfold_monad. rewrite Ha.
  unfold with_events. destruct a as [[|b data]|]; simpl; tidy_log; done.
Qed.

(** Dispatch assigns [audio_bytes] and nothing else. *)
Lemma dispatch_speech_keeps_variables E story w w' :
  truthy_str story = true →
  dispatch_speech E story w = (Ok tt, w') →
  elevenlabs_client (vars w') = elevenlabs_client (vars w)
  ∧ selected_voice (vars w') = selected_voice (vars w)
  ∧ voice_settings (vars w') = voice_settings (vars w).
Proof.
  intros Hs. unfold dispatch_speech.
  unfold bind at 1. unfold read at 1.
  unfold bind at 1. unfold read at 1. simpl.
  destruct (bool_decide _ && truthy_voice _) eqn:Hcond.
  - unfold bind at 1. unfold read at 1. unfold bind at 1.
    apply andb_prop in Hcond as [Hc%bool_decide_eq_true Hv].
    destruct (selected_voice (vars w)) as [[|c v]|] eqn:Hsel;
      try discriminate Hv.
    change (default "" (Some (String c v))) with (String c v).
    destruct (convert_elevenlabs_trace E story (String c v)
                (voice_settings (vars w)) w Hs Hc)
      as (r & w2 & rest2 & -> & Hvars2 & _).
    unfold set_audio_bytes, assign. simpl. intros [= <-]. simpl.
    by rewrite Hvars2, Hsel.
  - unfold bind at 1.
    destruct (convert_gtts_trace E story w Hs) as (r & rest2 & -> & _).
    unfold set_audio_bytes, assign, with_events. simpl.
    intros [= <-]. done.
Qed.

(** Lines 301-318 for a story that line 301 accepts. *)
Lemma speak_story_trace E story w :
  is_narrative story = true →
  ∃ w' a rest,
    speak_story E story w = (Ok tt, w')
    ∧ audio_bytes (vars w') = Some a
    ∧ elevenlabs_client (vars w') = elevenlabs_client (vars w)
    ∧ selected_voice (vars w') = selected_voice (vars w)
    ∧ voice_settings (vars w') = voice_settings (vars w)
    ∧ log w' =
      (log w ++
       [St_subheader "📜 Generated Story:"; St_write story;
        match elevenlabs_client (vars w), selected_voice (vars w) with
        | Some _, Some (String c v) =>
            Call_generate
              (build_generate_params story (String c v)
                 (voice_settings (vars w)))
        | _, _ => Call_gtts story
        end] ++ rest ++ audio_outcome a)%list
    ∧ ui_messages rest.
Proof.
  intros Hn. unfold speak_story. rewrite Hn.
  unfold bind at 1. unfold bind at 1. unfold emit at 1.
  unfold bind at 1. unfold emit at 1.
  match goal with |- context [dispatch_speech E story ?w0] =>
    destruct (dispatch_speech_trace E story w0 (is_narrative_truthy _ Hn))
      as (w1 & rest & Hrun & Hlog & Hrest & [a Ha]) end.
  rewrite Hrun. simpl in Hlog.
  rewrite (present_audio_bound a w1 Ha).
  destruct (dispatch_speech_keeps_variables E story _ w1
              (is_narrative_truthy _ Hn) Hrun) as (Hc & Hv & Hs).
  simpl in Hc, Hv, Hs.
  eexists _, a, rest. split; [reflexivity |].
  unfold with_events. simpl. rewrite Hlog. tidy_log.
  repeat split; done.
Qed.

Lemma audio_outcome_no_elevenlabs a :
  Forall (λ e, elevenlabs_event e = false) (audio_outcome a).
Proof.
  destruct a as [[|b data]|]; simpl; repeat constructor.
Qed.

Lemma ui_messages_no_elevenlabs evs :
  ui_messages evs → Forall (λ e, elevenlabs_event e = false) evs.
Proof.
  unfold ui_messages. intros H. eapply Forall_impl; [exact H |].
  intros e. by destruct e.
Qed.

(** X16: for a story that line 301 accepts, lines 301-318 end normally.
    The story is written out first; the player appears last, exactly when
    [audio_bytes] holds a buffer that is not empty, and plays that buffer;
    otherwise the last message is the warning that no audio could be made. *)
Theorem accepted_story_is_played_or_warned E story w :
  is_narrative story = true →
  ∃ w' a trace,
    speak_story E story w = (Ok tt, w')
    ∧ audio_bytes (vars w') = Some a
    ∧ log w' =
      (log w ++ St_subheader "📜 Generated Story:" :: St_write story
         :: trace ++ audio_outcome a)%list
    ∧ ¬ shows_audio trace.
Proof.
  intros Hn.
  destruct (speak_story_trace E story w Hn)
    as (w' & a & rest & Hrun & Ha & _ & _ & _ & Hlog & Hrest).
  eexists w', a, (_ :: rest). split; [exact Hrun |]. split; [exact Ha |].
  split; [rewrite Hlog; tidy_log; reflexivity |].
  intros [d Hd]. apply elem_of_cons in Hd as [Hd | Hd].
  - destruct (elevenlabs_client (vars w)), (selected_voice (vars w))
      as [[|ch v]|]; discriminate Hd.
  - unfold ui_messages in Hrest.
    by eapply Forall_forall in Hrest; [| exact Hd].
Qed.

Lemma accepted_story_is_played_or_warned_witness :
  ∃ w' a trace,
    speak_story env_all_good sample_story world_with_client = (Ok tt, w')
    ∧ audio_bytes (vars w') = Some a
    ∧ log w' =
      (St_subheader "📜 Generated Story:" :: St_write sample_story
         :: trace ++ audio_outcome a)
    ∧ ¬ shows_audio trace.
Proof.
  apply (accepted_story_is_played_or_warned env_all_good sample_story
           world_with_client).
  reflexivity.
Defined.

(** With a story that line 301 rejects and [audio_bytes] unbound, lines
    301-318 log nothing and end in [NameError]. *)
Lemma speak_story_rejected E story w :
  is_narrative story = false →
  audio_bytes (vars w) = None →
  speak_story E story w =
  (Raise (Exn "NameError" "name 'audio_bytes' is not defined"), w).
Proof.
  intros Hn Ha. unfold speak_story, present_audio. rewrite Hn.
  unfold_monad. simpl. by rewrite Ha.
Qed.

(** X15: a run in which the button is pressed ends normally exactly when
    line 301 accepts the generated story.  When it rejects it (a failure
    string or an empty text), the run ends at line 314 with [NameError],
    because nothing has bound [audio_bytes]. *)
Theorem run_ends_normally_iff_story_accepted E image prompt fs story :
  fst (generate_story_from_image E image prompt (initial_world fs)) = Ok story →
  fst (script E (Some image) prompt (initial_world fs)) =
  if is_narrative story then Ok tt
  else Raise (Exn "NameError" "name 'audio_bytes' is not defined").
Proof.
  intros Hstory.
  unfold script, create_story_and_speech.
  destruct (configure_elevenlabs_frame E (initial_world fs))
    as (w1 & evs1 & Hrun1 & _ & _ & Ha1 & _).
  destruct (voice_options_frame E w1)
    as (w2 & evs2 & Hrun2 & _ & _ & Ha2 & _).
  destruct (generate_story_frame E image prompt)
    as (story' & evs3 & _ & Hrun3).
  rewrite Hrun3 in Hstory. simpl in Hstory. injection Hstory as ->.
  unfold bind at 1. rewrite Hrun1.
  unfold bind at 1. rewrite Hrun2.
  unfold bind at 1. rewrite Hrun3.
  destruct (is_narrative story) eqn:Hn.
  - destruct (speak_story_trace E story (with_events evs3 w2) Hn)
      as (w' & a & rest & -> & _). reflexivity.
  - rewrite speak_story_rejected; [done | done |].
    simpl. by rewrite Ha2, Ha1.
Qed.

Lemma run_ends_normally_iff_story_accepted_witness :
  fst (script env_gemini_empty (Some sample_image) "Tell a short story"
         (initial_world ∅))
  = Raise (Exn "NameError" "name 'audio_bytes' is not defined").
Proof.
  apply (run_ends_normally_iff_story_accepted env_gemini_empty sample_image
           "Tell a short story" ∅
           "Could not generate a story from the image. The response was empty or malformed.").
  reflexivity.
Defined.

(** ** Without a client *)

Lemma configure_without_client E w :
  client_unavailable E →
  ∃ w' evs,
    configure_elevenlabs E w = (Ok tt, w')
    ∧ log w' = (log w ++ evs)%list
    ∧ ui_messages evs
    ∧ elevenlabs_client (vars w') = None
    ∧ audio_bytes (vars w') = audio_bytes (vars w).
Proof.
  unfold client_unavailable, configure_elevenlabs, set_client, set_configured.
  unfold_monad. simpl.
  intros [[e ->] | (key & -> & [Hk | [e Hnew]])]; simpl.
  - eexists _, [_]. repeat split; solve_ui_messages.
  - rewrite Hk. simpl. eexists _, []. rewrite app_nil_r.
    repeat split; solve_ui_messages.
  - destruct (truthy_str key); simpl.
    + rewrite Hnew. simpl. eexists _, [_]. repeat split; solve_ui_messages.
    + eexists _, []. rewrite app_nil_r. repeat split; solve_ui_messages.
Qed.

Lemma voice_options_without_client E w :
  elevenlabs_client (vars w) = None →
  ∃ w',
    voice_options E w = (Ok tt, w')
    ∧ log w' =
      (log w ++ [St_text "Using Google TTS (Standard voice) as ElevenLabs client is not configured."])%list
    ∧ elevenlabs_client (vars w') = None
    ∧ selected_voice (vars w') = None
    ∧ voice_settings (vars w') = None
    ∧ audio_bytes (vars w') = audio_bytes (vars w).
Proof.
  intros Hc. unfold voice_options, set_selected_voice, set_voice_settings.
  unfold bind at 1. unfold assign at 1.
  unfold bind at 1. unfold assign at 1.
  unfold bind at 1. unfold read at 1. simpl. rewrite Hc.
  unfold_monad. simpl.
  eexists. split; [reflexivity |]. simpl. by rewrite ?Hc.
Qed.

(** X13: when start-up cannot build a client (the key lookup raises, the
    key is empty or the constructor raises), a run with an accepted story
    never reaches ElevenLabs: no listing call, no synthesis call, no voice and
    no tone settings; the story is handed to the fallback engine as it is. *)
Theorem without_client_story_goes_to_gtts E image prompt fs story :
  client_unavailable E →
  fst (generate_story_from_image E image prompt (initial_world fs)) = Ok story →
  is_narrative story = true →
  (Call_gtts story
     ∈ log (snd (script E (Some image) prompt (initial_world fs))))
  ∧ ¬ calls_primary (log (snd (script E (Some image) prompt (initial_world fs))))
  ∧ (Call_get_all
       ∉ log (snd (script E (Some image) prompt (initial_world fs))))
  ∧ selected_voice
      (vars (snd (script E (Some image) prompt (initial_world fs)))) = None
  ∧ voice_settings
      (vars (snd (script E (Some image) prompt (initial_world fs)))) = None.
Proof.
  intros Hno Hstory Hn.
  destruct (configure_without_client E (initial_world fs) Hno)
    as (w1 & evs1 & Hrun1 & Hlog1 & Hui1 & Hc1 & _).
  destruct (voice_options_without_client E w1 Hc1)
    as (w2 & Hrun2 & Hlog2 & Hc2 & Hv2 & Hs2 & _).
  destruct (generate_story_messages E image prompt)
    as (story' & evs3 & Hui3 & Hrun3).
  rewrite Hrun3 in Hstory. simpl in Hstory. injection Hstory as ->.
  destruct (speak_story_trace E story (with_events evs3 w2) Hn)
    as (w' & a & rest & Hrun4 & _ & _ & Hv & Hs & Hlog & Hrest).
  assert (script E (Some image) prompt (initial_world fs) = (Ok tt, w'))
    as ->.
  { unfold script, create_story_and_speech.
    unfold bind at 1. rewrite Hrun1.
    unfold bind at 1. rewrite Hrun2.
    unfold bind at 1. by rewrite Hrun3. }
  simpl in *. rewrite Hc2 in Hlog.
  assert (Forall (λ e, elevenlabs_event e = false) (log w')) as Hnone.
  { rewrite Hlog, Hlog2, Hlog1.
    repeat first
      [ apply Forall_app_2
      | apply Forall_cons_2; [reflexivity |]
      | by apply ui_messages_no_elevenlabs
      | apply audio_outcome_no_elevenlabs
      | apply Forall_nil_2 ]. }
  split; [| split; [| split; [| split]]].
  - rewrite Hlog. apply elem_of_app. right. do 2 right. left.
  - intros [p Hp]. eapply Forall_forall in Hnone; [| exact Hp].
    discriminate Hnone.
  - intros Hp. eapply Forall_forall in Hnone; [| exact Hp].
    discriminate Hnone.
  - by rewrite Hv.
  - by rewrite Hs.
Qed.

Lemma without_client_story_goes_to_gtts_witness :
  (Call_gtts sample_story
     ∈ log (snd (script env_no_key (Some sample_image) "Tell a short story"
                   (initial_world ∅))))
  ∧ ¬ calls_primary
        (log (snd (script env_no_key (Some sample_image) "Tell a short story"
                     (initial_world ∅))))
  ∧ (Call_get_all
       ∉ log (snd (script env_no_key (Some sample_image) "Tell a short story"
                     (initial_world ∅))))
  ∧ selected_voice
      (vars (snd (script env_no_key (Some sample_image) "Tell a short story"
                    (initial_world ∅)))) = None
  ∧ voice_settings
      (vars (snd (script env_no_key (Some sample_image) "Tell a short story"
                    (initial_world ∅)))) = None.
Proof.
  apply (without_client_story_goes_to_gtts env_no_key sample_image
           "Tell a short story" ∅ sample_story).
  - right. exists "". split; [reflexivity |]. left. reflexivity.
  - reflexivity.
  - reflexivity.
Defined.

(** ** Gemini configuration *)

(** X17: the Gemini set-up never raises.  It answers [True] exactly when
    the key was found and [genai.configure] and both model constructions
    returned, and then shows nothing; in every other case it answers [False]
    and shows one error.  A [KeyError] is reported as a missing key. *)
Theorem gemini_flag_characterised G w :
  ∃ flag evs,
    configure_gemini G w = (Ok flag, with_events evs w)
    ∧ (flag = true ↔
       (∃ key, secrets_gemini_key G = Ok key ∧ genai_configure G key = None)
       ∧ vision_model_new G = None ∧ text_model_new G = None)
    ∧ (if flag then evs = [] else ∃ msg, evs = [St_error msg])
    ∧ (∀ e, secrets_gemini_key G = Raise e → is_KeyError e = true →
         evs = [St_error "🚨 Gemini API Key not found. Please add it to your Streamlit secrets (.streamlit/secrets.toml)."]).
Proof.
  unfold configure_gemini, call. unfold_monad. unfold with_events. simpl.
  destruct (secrets_gemini_key G) as [key|e] eqn:Hkey; simpl.
  - destruct (genai_configure G key) as [e|] eqn:Hconf; simpl.
    { exists false. destruct (is_KeyError e); simpl;
        eexists [_]; (split; [reflexivity |]); (split; [| split; [eauto |]]);
        try (intros e' [=]);
        (split; [discriminate |]);
        intros [(k & [= <-] & Hk) _]; congruence. }
    destruct (vision_model_new G) as [e|] eqn:Hvis; simpl.
    { exists false. destruct (is_KeyError e); simpl;
        eexists [_]; (split; [reflexivity |]); (split; [| split; [eauto |]]);
        try (intros e' [=]);
        (split; [discriminate |]); intros (_ & H & _); discriminate H. }
    destruct (text_model_new G) as [e|] eqn:Htext; simpl.
    { exists false. destruct (is_KeyError e); simpl;
        eexists [_]; (split; [reflexivity |]); (split; [| split; [eauto |]]);
        try (intros e' [=]);
        (split; [discriminate |]); intros (_ & _ & H); discriminate H. }
    exists true, []. rewrite app_nil_r. split; [by destruct w |].
    split; [| split; [done |]]; [| intros e' [=]].
    split; [| done]. intros _. eauto.
  - exists false. destruct (is_KeyError e) eqn:He; simpl;
      eexists [_]; (split; [reflexivity |]); (split; [| split; [eauto |]]).
    + split; [discriminate |]. intros [(k & [=] & _) _].
    + by intros e' [= <-] _.
    + split; [discriminate |]. intros [(k & [=] & _) _].
    + intros e' [= <-] He'. congruence.
Qed.

(** ** The page *)


(** The button area when the button is disabled. *)
Lemma button_section_disabled E P uploaded_file w :
  button_disabled E uploaded_file = true →
  button_section E P uploaded_file w =
  (Ok tt,
   with_events
     [St_warning
        (if gemini_api_configured E
         then "Please upload an image to enable the button."
         else "Cannot generate story. Please ensure the Gemini API key is correctly configured.")]
     w).
Proof.
  intros H. unfold button_section, st_button. rewrite H. simpl.
  rewrite andb_false_r. unfold button_disabled in H.
  destruct (gemini_api_configured E), uploaded_file; simpl in *;
    done.
Qed.

(** X19: while the button is disabled (Gemini is not configured, or no
    picture could be opened) a click does nothing; the page explains why,
    naming the Gemini key first when both reasons apply. *)
Theorem disabled_button_explains_itself E P uploaded_file w :
  button_disabled E uploaded_file = true →
  button_section E P uploaded_file w =
  (Ok tt,
   with_events
     [St_warning
        (if gemini_api_configured E
         then "Please upload an image to enable the button."
         else "Cannot generate story. Please ensure the Gemini API key is correctly configured.")]
     w).
Proof. apply button_section_disabled. Qed.

Lemma disabled_button_explains_itself_witness :
  button_section env_all_good inputs_all_good None world_with_client =
  (Ok tt,
   with_events [St_warning "Please upload an image to enable the button."]
     world_with_client).
Proof.
  apply (disabled_button_explains_itself env_all_good inputs_all_good None
           world_with_client).
  reflexivity.
Defined.








(** ** The whole run *)





(** ** A run in which everything works *)

Lemma configure_gemini_true G w :
  fst (configure_gemini G w) = Ok true →
  configure_gemini G w = (Ok true, w).
Proof.
  unfold configure_gemini, call. unfold_monad. simpl.
  destruct (secrets_gemini_key G) as [key|e]; simpl.
  - destruct (genai_configure G key) as [e|]; simpl.
    { destruct (is_KeyError e); simpl; discriminate. }
    destruct (vision_model_new G) as [e|]; simpl.
    { destruct (is_KeyError e); simpl; discriminate. }
    destruct (text_model_new G) as [e|]; simpl.
    { destruct (is_KeyError e); simpl; discriminate. }
    done.
  - destruct (is_KeyError e); simpl; discriminate.
Qed.

Lemma configure_with_client E w key c :
  secrets_get_key E = Ok key → truthy_str key = true →
  ElevenLabs_new E key = Ok c →
  ∃ w' evs,
    configure_elevenlabs E w = (Ok tt, w')
    ∧ elevenlabs_client (vars w') = Some c
    ∧ audio_bytes (vars w') = audio_bytes (vars w)
    ∧ files w' = files w
    ∧ log w' = (log w ++ evs)%list
    ∧ speechless evs.
Proof.
  intros Hkey Ht Hnew.
  unfold configure_elevenlabs, set_client, set_configured.
  unfold_monad. simpl. rewrite Hkey. simpl. rewrite Ht, Hnew. simpl.
  destruct (get_all_probe E); simpl; eexists _, _;
    (split; [reflexivity |]); simpl; tidy_log; repeat split;
    solve_speechless.
Qed.

(** With a client, the voice options end with both sliders stored. *)
Lemma voice_options_settings E w c :
  elevenlabs_client (vars w) = Some c →
  voice_settings (vars (snd (voice_options E w))) =
  Some (tone_parameters (slider_stability E) (slider_clarity E)).
Proof.
  intros Hc.
  unfold voice_options, voice_names, set_selected_voice, set_voice_settings.
  unfold bind at 1. unfold assign at 1.
  unfold bind at 1. unfold assign at 1.
  unfold bind at 1. unfold read at 1. simpl. rewrite Hc.
  unfold bind at 1. unfold emit at 1.
  unfold bind at 1. unfold try_except at 1.
  unfold bind at 1. unfold bind at 1. unfold emit at 1.
  unfold bind at 1. unfold lift at 1.
  destruct (get_all_catalog E) as [r|e].
  - match goal with |- context [resolve_names r ?w0] =>
      destruct (resolve_names_events r w0) as (outcome & evs & -> & _) end.
    unfold_monad. unfold with_events. simpl.
    by destruct outcome as [names|e]; [destruct (truthy_list names) |].
  - unfold_monad. simpl. done.
Qed.

(** The primary helper when every step works. *)
Lemma convert_elevenlabs_success E text voice vs w chunks p :
  truthy_str text = true →
  is_Some (elevenlabs_client (vars w)) →
  generate E (build_generate_params text voice vs) = Ok (Stream chunks None) →
  tmp_name E = Ok p → files w !! p = None →
  tmp_write E = None → unlink_fails E = None →
  convert_text_to_speech_elevenlabs E text voice vs w =
  (Ok (Some (concat chunks)),
   with_events [Call_generate (build_generate_params text voice vs)] w).
Proof.
  intros Ht Hc Hgen Hname Hp Hwrite Hunlink.
  rewrite convert_elevenlabs_guard_passed by done.
  unfold try_except, elevenlabs_try_body, stage_in_temp_file, unlink.
  unfold_monad. unfold with_events. simpl.
  rewrite Hgen. simpl. rewrite Hname. simpl. rewrite Hp, Hwrite, Hunlink.
  simpl. rewrite insert_insert_eq, delete_insert_id by done. done.
Qed.

(** X23: a run in which everything works.  Gemini is configured, a
    client is built, the listing call answers, a picture is uploaded, the
    button is clicked with a prompt, Gemini returns a story that line 301
    accepts, the selected voice is not empty, [generate] streams chunks that
    are not all empty and the temporary file can be staged and removed.  Then
    the run ends normally; the story is written out, one request goes to the
    primary backend with the story, the selected voice and both slider values,
    the player plays the joined chunks, the fallback is never called and the
    files are as before. *)
Theorem full_run_speaks_the_story G E P fs file key c r response story parts
    others chunks p :
  fst (configure_gemini G (initial_world fs)) = Ok true →
  secrets_get_key E = Ok key → truthy_str key = true →
  ElevenLabs_new E key = Ok c →
  get_all_catalog E = Ok r →
  truthy_str (voice_for E r) = true →
  file_uploader P = Some file → open_image_fails P = None →
  button_clicked P = true → truthy_str (story_prompt P) = true →
  reread_fails P = None →
  vision_generate E file (newline ++ newline ++ story_prompt P) = Ok response →
  candidates response = (story :: parts) :: others →
  is_narrative story = true →
  generate E
    (GenerateParams story (voice_for E r) "eleven_multilingual_v2"
       (Some (mkVoiceSettings (slider_stability E) (slider_clarity E))))
    = Ok (Stream chunks None) →
  concat chunks ≠ [] →
  tmp_name E = Ok p → fs !! p = None →
  tmp_write E = None → unlink_fails E = None →
  ∃ w' trace,
    app G E P (initial_world fs) = (Ok tt, w')
    ∧ files w' = fs
    ∧ audio_bytes (vars w') = Some (Some (concat chunks))
    ∧ log w' =
      (trace ++
       [St_subheader "📜 Generated Story:";
        St_write story;
        Call_generate
          (GenerateParams story (voice_for E r) "eleven_multilingual_v2"
             (Some (mkVoiceSettings (slider_stability E) (slider_clarity E))));
        St_subheader "🗣️ Listen to the Story:";
        St_audio (concat chunks)])%list
    ∧ speechless trace.
Proof.
  intros Hgem Hkey Hkt Hnew Hcat Hvoice Hfile Hopen Hclick Hprompt Hreread
    Hvision Hcands Hnarr Hgen Haudio Hname Hfresh Hwrite Hunlink.
  set (E' := with_gemini_flag E true).
  (* start-up *)
  unfold app. unfold bind at 1.
  rewrite (configure_gemini_true G _ Hgem). fold E'.
  destruct (configure_with_client E' (initial_world fs) key c Hkey Hkt Hnew)
    as (w1 & evs1 & Hrun1 & Hc1 & Ha1 & Hf1 & Hlog1 & Hq1).
  unfold bind at 1. rewrite Hrun1.
  (* upload *)
  unfold page. unfold bind at 1.
  unfold upload_section, call. rewrite Hfile, Hopen.
  unfold try_except, bind at 1, ret at 1, ret at 1. simpl fst.
  (* voice options *)
  destruct (voice_options_with_catalogue E' w1 c r Hc1 Hcat)
    as (w2 & evs2 & Hrun2 & Hlog2 & Hq2 & Hsel2 & _).
  destruct (voice_options_frame E' w1)
    as (w2' & evs2' & Hrun2' & _ & _ & Ha2 & Hc2 & Hf2).
  rewrite Hrun2 in Hrun2'. injection Hrun2' as <-.
  pose proof (voice_options_settings E' w1 c Hc1) as Hset2.
  rewrite Hrun2 in Hset2. simpl in Hset2.
  unfold bind at 1. rewrite Hrun2.
  (* the button *)
  unfold button_section, st_button, button_disabled. simpl.
  rewrite Hclick, Hprompt, Hreread. simpl.
  unfold call, try_except. unfold bind at 1. unfold bind at 1.
  unfold ret at 1. unfold ret at 1.
  (* the story *)
  unfold create_story_and_speech, generate_story_from_image. simpl.
  unfold bind at 1. unfold try_except, bind at 1, lift at 1.
  rewrite Hvision, Hcands. unfold ret at 1.
  (* speech *)
  unfold speak_story. rewrite Hnarr.
  unfold bind at 1. unfold bind at 1. unfold emit at 1.
  unfold bind at 1. unfold emit at 1.
  unfold dispatch_speech.
  unfold bind at 1. unfold read at 1.
  unfold bind at 1. unfold read at 1. simpl.
  rewrite Hc2, Hc1, Hsel2.
  change (voice_choice E' r) with (voice_choice E r).
  unfold voice_for in Hvoice, Hgen |- *.
  destruct (voice_choice E r) as [v|]; [| discriminate Hvoice].
  simpl in Hvoice, Hgen |- *.
  try rewrite (bool_decide_eq_true_2 _ (mk_is_Some _ _ eq_refl)). simpl.
  rewrite Hvoice.
  unfold bind at 1. unfold read at 1. simpl. rewrite Hset2.
  unfold bind at 1.
  match goal with
  | |- context [convert_text_to_speech_elevenlabs E' story ?v ?vs ?w0] =>
      rewrite (convert_elevenlabs_success E' story v vs w0 chunks p);
        [ | apply is_narrative_truthy, Hnarr
          | simpl; rewrite Hc2, Hc1; eauto
          | by rewrite build_generate_params_tone
          | done
          | simpl; by rewrite Hf2, Hf1
          | done
          | done ]
  end.
  rewrite build_generate_params_tone.
  unfold set_audio_bytes, assign, with_events, present_audio. simpl.
  unfold bind at 1. unfold read at 1. simpl.
  destruct (concat chunks) as [|b data] eqn:Hconcat; [done |]. simpl.
  unfold_monad. simpl.
  eexists _, (evs1 ++ St_text "Using ElevenLabs for human-like voice."
                :: Call_get_all :: evs2)%list.
  split; [reflexivity |]. simpl.
  split; [by rewrite Hf2, Hf1 |]. split; [done |].
  rewrite Hlog2, Hlog1. simpl. tidy_log.
  split; [done |].
  unfold speechless in *. apply Forall_app_2; [done |].
  by repeat apply Forall_cons_2.
Qed.

Lemma full_run_speaks_the_story_witness :
  ∃ w' trace,
    app gemini_all_good env_all_good inputs_all_good (initial_world ∅)
    = (Ok tt, w')
    ∧ files w' = ∅
    ∧ audio_bytes (vars w') = Some (Some sample_audio)
    ∧ log w' =
      (trace ++
       [St_subheader "📜 Generated Story:";
        St_write sample_story;
        Call_generate
          (GenerateParams sample_story "Aria" "eleven_multilingual_v2"
             (Some (mkVoiceSettings 0.3 0.9)));
        St_subheader "🗣️ Listen to the Story:";
        St_audio sample_audio])%list
    ∧ speechless trace.
Proof.
  apply (full_run_speaks_the_story gemini_all_good env_all_good
           inputs_all_good ∅ sample_image "sk-test" (Client "sk-test")
           (VResponse (Some sample_voices))
           (GeminiResponse [[sample_story]] "response") sample_story [] []
           [[Byte.x49]; [Byte.x44; Byte.x33]] "/tmp/tmpk3x9.mp3").
  all: try reflexivity.
  discriminate.
Defined.
